(** * Karta: session authentication and canvas synchronisation

  A shallow embedding of the Express server (server/index.js) and of the
  canvas page of the React client (client/src/pages, the [Canvas]
  component), with the properties of the design document stated over it.

  The managed backend (Supabase auth, the [user_profiles] and
  [tldraw_drawings] tables) and the JWT library are collaborators of the
  program: they are given a small executable model here, a world that the
  request handlers read and update.  *)

From Stdlib Require Import ZArith NArith List Bool String Ascii Lia.
From Stdlib Require Import SpecFloat.
Import ListNotations.
Open Scope Z_scope.
Set Warnings "-register-all".

(* ================================================================== *)
(** * JavaScript values as the handlers see them *)
(* ================================================================== *)

Module JS.

(** A JavaScript string is a sequence of UTF-16 code units; [length]
    counts code units. *)
Definition jstring := list N.

Definition utf16 (s : string) : jstring :=
  map N_of_ascii (list_ascii_of_string s).

Fixpoint jstring_eqb (a b : jstring) : bool :=
  match a, b with
  | [], [] => true
  | x :: a', y :: b' => N.eqb x y && jstring_eqb a' b'
  | _, _ => false
  end.

(** A JSON document as it is written, and the JavaScript value it is
    parsed to.  A number is the integer [JNum n] or the decimal fraction
    [JDec m e], which is [m / 10^e]: every literal is one of the two, and
    so is every finite IEEE double.  [JInfinity] is the value of a literal
    beyond the range of doubles.  Negative zero is not told apart from
    zero: no test of the handlers and no serialisation distinguishes them.
    An object lists its members in order; a document may repeat a key.
    [JSON_parse] below takes a document to the value [express.json()]
    hands to a handler; [undefined] is the absence of a value,
    [option json]. *)
Inductive json : Type :=
| JNull
| JBool (b : bool)
| JNum (n : Z)
| JStr (s : jstring)
| JArr (items : list json)
| JObj (fields : list (jstring * json))
| JDec (m : Z) (e : positive)
| JInfinity (negative : bool).

(** [!!v] *)
Definition truthy (v : option json) : bool :=
  match v with
  | None | Some JNull => false
  | Some (JBool b) => b
  | Some (JNum n) => negb (n =? 0)
  | Some (JStr s) => match s with [] => false | _ :: _ => true end
  | Some (JArr _) | Some (JObj _) => true
  | Some (JDec m _) => negb (m =? 0)
  | Some (JInfinity _) => true
  end.

Fixpoint own_property (k : jstring) (fields : list (jstring * json)) : option json :=
  match fields with
  | [] => None
  | (k', v) :: rest => if jstring_eqb k k' then Some v else own_property k rest
  end.

(** [v.length] for a value that is neither [undefined] nor [null]. *)
Definition length_of (v : json) : option json :=
  match v with
  | JStr s => Some (JNum (Z.of_nat (List.length s)))
  | JArr l => Some (JNum (Z.of_nat (List.length l)))
  | JObj fields => own_property (utf16 "length") fields
  | JNull | JBool _ | JNum _ | JDec _ _ | JInfinity _ => None
  end.

(** White space and line terminators removed by [String.prototype.trim]. *)
Definition is_space (c : N) : bool :=
  ((9 <=? c) && (c <=? 13) || (c =? 32) || (c =? 160) || (c =? 5760)
   || (8192 <=? c) && (c <=? 8202) || (c =? 8232) || (c =? 8233)
   || (c =? 8239) || (c =? 8287) || (c =? 12288) || (c =? 65279))%N.

Fixpoint trim_start (s : jstring) : jstring :=
  match s with
  | c :: rest => if is_space c then trim_start rest else s
  | [] => []
  end.

Definition trim (s : jstring) : jstring :=
  rev (trim_start (rev (trim_start s))).

Section Coercion.
(** ECMAScript [ToNumber] on strings, arrays and objects ([None] is
    NaN); it belongs to the language runtime. *)
Variable ToNumber : json -> option Z.

(** [v < k] for an integer literal [k]. *)
Definition less_than (v : option json) (k : Z) : bool :=
  match v with
  | None => false
  | Some JNull => 0 <? k
  | Some (JBool b) => (if b then 1 else 0) <? k
  | Some (JNum n) => n <? k
  | Some (JDec m e) => m <? k * Z.pos (Pos.pow 10 e)
  | Some (JInfinity negative) => negative
  | Some (JStr _ as x) | Some (JArr _ as x) | Some (JObj _ as x) =>
      match ToNumber x with Some n => n <? k | None => false end
  end.
End Coercion.

(** ** Numbers are IEEE 754 doubles *)





(** ** Objects keep one value a key, integer keys first *)











End JS.

(* ================================================================== *)
(** * The server: server/index.js *)
(* ================================================================== *)

Module Server.
Import JS.

(** ** The backend world *)

(** Row and user identifiers (uuids): only ever compared. *)
Definition ident := N.

(** A row of [tldraw_drawings]; the columns the store maintains by itself
    (timestamps) are not read or written by any handler and are left out. *)
Record Drawing := {
  d_id : ident;
  d_user_id : ident;
  drawing_name : jstring;
  snapshot : json
}.

(** A row of [user_profiles]. *)
Record Profile := {
  p_id : ident;
  p_email : jstring;
  full_name : json;
  avatar_url : json;
  p_created_at : Z;
  p_updated_at : Z
}.

(** A user of the identity store. *)
Record AuthUser := {
  u_id : ident;
  u_email : jstring;
  u_password : jstring;
  u_created_at : Z
}.

(** What a single backend call does regardless of its arguments: it works,
    it answers with an [error] object, or its promise rejects. *)
Inductive fault := Healthy | Rejects | Crashes.

Record World := {
  users : list AuthUser;
  profiles : list Profile;
  drawings : list Drawing;
  clock : Z;               (* seconds since the epoch *)
  next_id : ident;         (* the next identifier the store hands out *)
  faults : list fault      (* the behaviour of the coming backend calls *)
}.

Definition next_fault (w : World) : fault :=
  match faults w with [] => Healthy | f :: _ => f end.

Definition consume (w : World) : World :=
  {| users := users w; profiles := profiles w; drawings := drawings w;
     clock := clock w; next_id := next_id w; faults := tl (faults w) |}.

Definition with_drawings (ds : list Drawing) (w : World) : World :=
  {| users := users w; profiles := profiles w; drawings := ds;
     clock := clock w; next_id := next_id w; faults := faults w |}.

Definition with_profiles (ps : list Profile) (w : World) : World :=
  {| users := users w; profiles := ps; drawings := drawings w;
     clock := clock w; next_id := next_id w; faults := faults w |}.

(** The [{ data, error }] pair every backend call resolves to. *)
Record result (A : Type) := { data : option A; error : option string }.
Arguments data {A} _.
Arguments error {A} _.

Definition ok {A} (a : A) : result A := {| data := Some a; error := None |}.
Definition ok_empty {A} : result A := {| data := None; error := None |}.
Definition failed {A} (msg : string) : result A :=
  {| data := None; error := Some msg |}.

(** ** Asynchronous code that may throw *)

Inductive outcome (A : Type) :=
| Done (a : A) (w : World)
| Raised (w : World).
Arguments Done {A} _ _.
Arguments Raised {A} _.

Definition Async (A : Type) := World -> outcome A.

Definition ret {A} (a : A) : Async A := fun w => Done a w.
Definition throw {A} : Async A := fun w => Raised w.
Definition bind {A B} (c : Async A) (k : A -> Async B) : Async B :=
  fun w => match c w with
           | Done a w' => k a w'
           | Raised w' => Raised w'
           end.

Notation "x <- c ;; k" := (bind c (fun x => k))
  (at level 61, c at next level, right associativity).

(** [await] of a backend call. *)
Definition await {A} (op : World -> result A * World) : Async (result A) :=
  fun w =>
    let w' := consume w in
    match next_fault w with
    | Healthy => let (r, w'') := op w' in Done r w''
    | Rejects => Done (failed "backend error") w'
    | Crashes => Raised w'
    end.

(** ** Queries *)

(** [.single()]: exactly one row, or an error. *)
Definition single {A} (rows : list A) : result A :=
  match rows with
  | [r] => ok r
  | _ => failed "JSON object requested, multiple (or no) rows returned"
  end.

Definition eq_id (canvasId : ident) (d : Drawing) : bool :=
  N.eqb (d_id d) canvasId.
Definition eq_user_id (userId : ident) (d : Drawing) : bool :=
  N.eqb (d_user_id d) userId.
Definition owned (canvasId userId : ident) (d : Drawing) : bool :=
  eq_id canvasId d && eq_user_id userId d.

(** [from('tldraw_drawings').select(..).eq('id', c).eq('user_id', u).single()] *)
Definition select_owned (canvasId userId : ident) (w : World) : result Drawing * World :=
  (single (filter (owned canvasId userId) (drawings w)), w).

(** The object built by the PATCH handler. *)
Record UpdateData := {
  set_snapshot : option json;
  set_drawing_name : option jstring
}.

Definition keys_length (u : UpdateData) : Z :=
  match set_snapshot u with Some _ => 1 | None => 0 end
  + match set_drawing_name u with Some _ => 1 | None => 0 end.

Definition apply_update (u : UpdateData) (d : Drawing) : Drawing :=
  {| d_id := d_id d;
     d_user_id := d_user_id d;
     drawing_name := match set_drawing_name u with Some n => n | None => drawing_name d end;
     snapshot := match set_snapshot u with Some s => s | None => snapshot d end |}.

(** [from('tldraw_drawings').update(u).eq('id', c).select().single()]: a
    singular response that does not get exactly one row is an error and
    the change is not kept. *)
Definition update_by_id (u : UpdateData) (canvasId : ident) (w : World) : result Drawing * World :=
  match filter (eq_id canvasId) (drawings w) with
  | [d] =>
      (ok (apply_update u d),
       with_drawings
         (map (fun x => if eq_id canvasId x then apply_update u x else x) (drawings w)) w)
  | rows => (single rows, w)
  end.

(** [from('tldraw_drawings').delete().eq('id', c).eq('user_id', u)] *)
Definition delete_owned (canvasId userId : ident) (w : World) : result unit * World :=
  (ok_empty,
   with_drawings (filter (fun d => negb (owned canvasId userId d)) (drawings w)) w).

(** ** Session tokens: the jsonwebtoken library *)

Record Claims := {
  userId : ident;
  email : jstring;
  iat : Z;
  exp : Z
}.

(** A token on the wire: a string that is not a JWT at all, or claims
    with a signature. *)
Inductive token :=
| Opaque (s : jstring)
| Signed (c : Claims) (signature : N).

Record SessionUser := {
  su_id : ident;
  su_email : jstring;
  su_created_at : Z
}.

(** ** Responses

    The status and the JSON body; the session cookie that sign-up and
    sign-in also set carries the same token as the body and is left out. *)

Inductive payload :=
| Error (msg : string)
| Message (msg : string)
| CanvasBody (canvas : option Drawing)
| SessionBody (user : SessionUser) (token : token)
| MeBody (user : Profile) (drawings : list Drawing).

Record response := { status : Z; body : payload }.

Definition Handler := World -> response * World.

Definition respond (st : Z) (b : payload) : Async response :=
  ret {| status := st; body := b |}.

(** [try { ... } catch (error) { res.status(500).json(...) }] *)
Definition try_catch (c : Async response) : Handler :=
  fun w => match c w with
           | Done r w' => (r, w')
           | Raised w' => ({| status := 500; body := Error "Internal server error" |}, w')
           end.

(** ** Canvas handlers *)

(** [app.get('/api/canvases/:id', verifyToken, ...)] after the guard. *)
Definition get_canvas (userId canvasId : ident) : Handler :=
  try_catch (
    r <- await (select_owned canvasId userId) ;;
    match error r, data r with
    | None, Some canvas => respond 200 (CanvasBody (Some canvas))
    | _, _ => respond 404 (Error "Canvas not found")
    end).

(** The body of a PATCH request after destructuring. *)
Record PatchBody := {
  b_snapshot : option json;
  b_drawing_name : option json
}.

(** [drawing_name.trim()]: only a string has the method. *)
Definition call_trim (v : json) : Async jstring :=
  match v with
  | JStr s => ret (trim s)
  | _ => throw
  end.

(** [app.patch('/api/canvases/:id', verifyToken, ...)] after the guard. *)
Definition update_canvas (userId canvasId : ident) (b : PatchBody) : Handler :=
  try_catch (
    existing <- await (select_owned canvasId userId) ;;
    match data existing with
    | None => respond 404 (Error "Canvas not found")
    | Some _ =>
        name <- match b_drawing_name b with
                | None => ret None
                | Some v => s <- call_trim v ;; ret (Some s)
                end ;;
        let updateData := {| set_snapshot := b_snapshot b; set_drawing_name := name |} in
        if keys_length updateData =? 0
        then respond 400 (Error "No fields to update")
        else
          r <- await (update_by_id updateData canvasId) ;;
          match error r with
          | Some _ => respond 500 (Error "Error updating canvas")
          | None => respond 200 (CanvasBody (data r))
          end
    end).

(** [app.delete('/api/canvases/:id', verifyToken, ...)] after the guard. *)
Definition delete_canvas (userId canvasId : ident) : Handler :=
  try_catch (
    r <- await (delete_owned canvasId userId) ;;
    match error r with
    | Some _ => respond 500 (Error "Error deleting canvas")
    | None => respond 200 (Message "Canvas deleted successfully")
    end).

(** ** The identity store and the profile table *)

Definition has_email (e : jstring) (u : AuthUser) : bool := jstring_eqb (u_email u) e.

(** [supabase.auth.admin.createUser({ email, password, email_confirm })]:
    the store refuses what is not a pair of strings and an address that is
    already registered; any other refusal is a [Rejects] fault. *)
Definition createUser (email password : option json) (w : World) : result AuthUser * World :=
  match email, password with
  | Some (JStr e), Some (JStr p) =>
      if existsb (has_email e) (users w)
      then (failed "A user with this email address has already been registered", w)
      else
        let user := {| u_id := next_id w; u_email := e; u_password := p;
                       u_created_at := clock w |} in
        (ok user,
         {| users := user :: users w; profiles := profiles w; drawings := drawings w;
            clock := clock w; next_id := N.succ (next_id w); faults := faults w |})
  | _, _ => (failed "Invalid credentials format", w)
  end.

(** [supabase.auth.signInWithPassword({ email, password })] *)
Definition signInWithPassword (email password : option json) (w : World) : result AuthUser * World :=
  match email, password with
  | Some (JStr e), Some (JStr p) =>
      match filter (fun u => has_email e u && jstring_eqb (u_password u) p) (users w) with
      | user :: _ => (ok user, w)
      | [] => (failed "Invalid login credentials", w)
      end
  | _, _ => (failed "Invalid login credentials", w)
  end.

Definition eq_profile_id (userId : ident) (p : Profile) : bool := N.eqb (p_id p) userId.

(** [from('user_profiles').insert({ id, email, full_name: null, avatar_url: null })];
    [id] is the primary key. *)
Definition insert_profile (userId : ident) (e : jstring) (w : World) : result unit * World :=
  if existsb (eq_profile_id userId) (profiles w)
  then (failed "duplicate key value violates unique constraint", w)
  else
    (ok_empty,
     with_profiles
       (profiles w ++ [ {| p_id := userId; p_email := e; full_name := JNull;
                           avatar_url := JNull; p_created_at := clock w;
                           p_updated_at := clock w |} ]) w).

(** [from('user_profiles').select('id').eq('id', userId).single()] *)
Definition select_profile (userId : ident) (w : World) : result Profile * World :=
  (single (filter (eq_profile_id userId) (profiles w)), w).

(** The profile of [userId] with its drawings embedded (the join on
    [tldraw_drawings]), [.eq('id', userId).single()]. *)
Definition select_profile_with_drawings (userId : ident) (w : World)
  : result (Profile * list Drawing) * World :=
  (single (map (fun p => (p, filter (eq_user_id (p_id p)) (drawings w)))
               (filter (eq_profile_id userId) (profiles w))), w).

Definition seven_days : Z := 7 * 24 * 60 * 60.

(** The request as the guard reads it: [req.cookies.token] and the
    [Authorization] header, the latter already split at spaces. *)
Record Request := {
  cookies_token : option token;
  authorization : option (list token)
}.

Definition token_truthy (t : option token) : bool :=
  match t with
  | None | Some (Opaque []) => false
  | Some _ => true
  end.

(** The body of a sign-up or sign-in request after destructuring. *)
Record AuthBody := {
  b_email : option json;
  b_password : option json
}.

(** [password.length]: reading a property of [undefined] or [null] throws. *)
Definition get_length (v : option json) : Async (option json) :=
  match v with
  | None | Some JNull => throw
  | Some x => ret (length_of x)
  end.

Definition session_user (u : AuthUser) : SessionUser :=
  {| su_id := u_id u; su_email := u_email u; su_created_at := u_created_at u |}.

Section Auth.
Variable ToNumber : json -> option Z.
(** The signature of the claims under a secret. *)
Variable HS256 : jstring -> Claims -> N.
(** [process.env.JWT_SECRET] *)
Variable JWT_SECRET : option jstring.

(** [jwt.sign({ userId, email }, secret, { expiresIn: '7d' })] at time
    [now]; [None] when it throws (no secret). *)
Definition jwt_sign (uid : ident) (e : jstring) (secret : option jstring) (now : Z)
  : option token :=
  match secret with
  | None | Some [] => None
  | Some k =>
      let c := {| userId := uid; email := e; iat := now; exp := now + seven_days |} in
      Some (Signed c (HS256 k c))
  end.

(** [jwt.verify(token, secret)] at time [now]; [None] when it throws:
    no secret, not a JWT, a wrong signature, or [now >= exp]. *)
Definition jwt_verify (t : token) (secret : option jstring) (now : Z) : option Claims :=
  match secret, t with
  | None, _ | Some [], _ => None
  | Some _, Opaque _ => None
  | Some k, Signed c sig =>
      if negb (N.eqb sig (HS256 k c)) then None
      else if exp c <=? now then None
      else Some c
  end.

Definition generateToken (user : AuthUser) : Async token :=
  fun w => match jwt_sign (u_id user) (u_email user) JWT_SECRET (clock w) with
           | Some t => Done t w
           | None => Raised w
           end.

(** The middleware: a response, or the decoded claims put in [req.user]. *)
Definition verifyToken (req : Request) (w : World) : response + Claims :=
  let token :=
    if token_truthy (cookies_token req) then cookies_token req
    else match authorization req with
         | Some parts => nth_error parts 1
         | None => None
         end in
  if negb (token_truthy token)
  then inl {| status := 401; body := Error "No token provided" |}
  else
    match token with
    | Some t =>
        match jwt_verify t JWT_SECRET (clock w) with
        | Some decoded => inr decoded
        | None => inl {| status := 401; body := Error "Invalid token" |}
        end
    | None => inl {| status := 401; body := Error "No token provided" |}
    end.

(** A route behind the guard. *)
Definition guarded (req : Request) (h : Claims -> Handler) : Handler :=
  fun w => match verifyToken req w with
           | inl r => (r, w)
           | inr decoded => h decoded w
           end.

(** [app.post('/api/auth/signup', ...)] *)
Definition signup (b : AuthBody) : Handler :=
  try_catch (
    if negb (truthy (b_email b)) || negb (truthy (b_password b))
    then respond 400 (Error "Email and password required")
    else
      len <- get_length (b_password b) ;;
      if less_than ToNumber len 6
      then respond 400 (Error "Password must be at least 6 characters")
      else
        r <- await (createUser (b_email b) (b_password b)) ;;
        match error r with
        | Some msg => respond 400 (Error msg)
        | None =>
            match data r with
            | None => throw
            | Some user =>
                _ <- await (insert_profile (u_id user) (u_email user)) ;;
                token <- generateToken user ;;
                respond 200 (SessionBody (session_user user) token)
            end
        end).

(** [app.post('/api/auth/signin', ...)] *)
Definition signin (b : AuthBody) : Handler :=
  try_catch (
    if negb (truthy (b_email b)) || negb (truthy (b_password b))
    then respond 400 (Error "Email and password required")
    else
      r <- await (signInWithPassword (b_email b) (b_password b)) ;;
      match error r with
      | Some msg => respond 401 (Error msg)
      | None =>
          match data r with
          | None => throw
          | Some user =>
              profile <- await (select_profile (u_id user)) ;;
              _ <- match data profile with
                   | None => await (insert_profile (u_id user) (u_email user))
                   | Some _ => ret ok_empty
                   end ;;
              token <- generateToken user ;;
              respond 200 (SessionBody (session_user user) token)
          end
      end).

(** [app.get('/api/auth/me', verifyToken, ...)] after the guard. *)
Definition me (uid : ident) : Handler :=
  try_catch (
    r <- await (select_profile_with_drawings uid) ;;
    match error r with
    | Some _ => respond 404 (Error "User not found")
    | None =>
        match data r with
        | None => throw
        | Some (user, ds) => respond 200 (MeBody user ds)
        end
    end).

(** The routes with their guard. *)
Definition GET_me (req : Request) : Handler :=
  guarded req (fun user => me (userId user)).
Definition GET_canvas (req : Request) (canvasId : ident) : Handler :=
  guarded req (fun user => get_canvas (userId user) canvasId).
Definition PATCH_canvas (req : Request) (canvasId : ident) (b : PatchBody) : Handler :=
  guarded req (fun user => update_canvas (userId user) canvasId b).
Definition DELETE_canvas (req : Request) (canvasId : ident) : Handler :=
  guarded req (fun user => delete_canvas (userId user) canvasId).
End Auth.

End Server.

(* ================================================================== *)
(** * The server: request bodies as [express.json()] delivers them *)
(* ================================================================== *)

Module BodyParser.
Import JS Server.




End BodyParser.

(* ================================================================== *)
(** * The client: the [Canvas] page (client/src/pages) *)
(* ================================================================== *)

Module Client.
Import JS.

Inductive SaveStatus := saved | saving | unsaved.

(** The editing surface kept in [editorRef]: [getSnapshot()] reads its
    live document. *)
Record Editor := { document : json }.

Definition getSnapshot (e : Editor) : json := document e.

(** A pending [setTimeout]; the callback is always [saveCanvas]. *)
Record Timer := { handle : Z; due : Z }.

(** A PATCH request issued by [canvasApi.update(id, snapshot)]. *)
Record Write := { request : Z; canvas_id : N; sent_snapshot : json }.

(** The component together with the browser timers and the network. *)
Record Canvas := {
  id : option N;                 (* useParams *)
  editorRef : option Editor;
  listening : bool;              (* editor.store.listen is subscribed *)
  saveStatus : SaveStatus;
  error : string;
  saveTimeoutRef : option Z;
  now : Z;                       (* milliseconds *)
  timers : list Timer;
  next_handle : Z;
  in_flight : list Write;
  sent : list Write              (* every request issued, oldest first *)
}.

Definition init (i : option N) : Canvas :=
  {| id := i; editorRef := None; listening := false; saveStatus := saved;
     error := ""; saveTimeoutRef := None; now := 0; timers := [];
     next_handle := 1; in_flight := []; sent := [] |}.

Definition setSaveStatus (s : SaveStatus) (c : Canvas) : Canvas :=
  {| id := id c; editorRef := editorRef c; listening := listening c;
     saveStatus := s; error := error c; saveTimeoutRef := saveTimeoutRef c;
     now := now c; timers := timers c; next_handle := next_handle c;
     in_flight := in_flight c; sent := sent c |}.

Definition setError (e : string) (c : Canvas) : Canvas :=
  {| id := id c; editorRef := editorRef c; listening := listening c;
     saveStatus := saveStatus c; error := e; saveTimeoutRef := saveTimeoutRef c;
     now := now c; timers := timers c; next_handle := next_handle c;
     in_flight := in_flight c; sent := sent c |}.

Definition set_editor (e : option Editor) (l : bool) (c : Canvas) : Canvas :=
  {| id := id c; editorRef := e; listening := l;
     saveStatus := saveStatus c; error := error c; saveTimeoutRef := saveTimeoutRef c;
     now := now c; timers := timers c; next_handle := next_handle c;
     in_flight := in_flight c; sent := sent c |}.

Definition set_saveTimeoutRef (r : option Z) (c : Canvas) : Canvas :=
  {| id := id c; editorRef := editorRef c; listening := listening c;
     saveStatus := saveStatus c; error := error c; saveTimeoutRef := r;
     now := now c; timers := timers c; next_handle := next_handle c;
     in_flight := in_flight c; sent := sent c |}.

Definition set_timers (t : Z) (ts : list Timer) (h : Z) (c : Canvas) : Canvas :=
  {| id := id c; editorRef := editorRef c; listening := listening c;
     saveStatus := saveStatus c; error := error c; saveTimeoutRef := saveTimeoutRef c;
     now := t; timers := ts; next_handle := h;
     in_flight := in_flight c; sent := sent c |}.

Definition set_network (fl all : list Write) (c : Canvas) : Canvas :=
  {| id := id c; editorRef := editorRef c; listening := listening c;
     saveStatus := saveStatus c; error := error c; saveTimeoutRef := saveTimeoutRef c;
     now := now c; timers := timers c; next_handle := next_handle c;
     in_flight := fl; sent := all |}.

(** [clearTimeout(h)] *)
Definition clearTimeout (h : Z) (c : Canvas) : Canvas :=
  set_timers (now c) (filter (fun t => negb (handle t =? h)) (timers c)) (next_handle c) c.

(** [setTimeout(() => saveCanvas(), ms)]: the new handle and the state. *)
Definition setTimeout (ms : Z) (c : Canvas) : Z * Canvas :=
  let h := next_handle c in
  (h, set_timers (now c) (timers c ++ [ {| handle := h; due := now c + ms |} ]) (h + 1) c).

(** A timer handle in a condition: zero and [null] are falsy. *)
Definition pending (r : option Z) : option Z :=
  match r with
  | Some h => if h =? 0 then None else Some h
  | None => None
  end.

(** [saveCanvas] up to its [await]: the request leaves with the snapshot
    read at this moment. *)
Definition saveCanvas (c : Canvas) : Canvas :=
  match id c, editorRef c with
  | Some i, Some editor =>
      let c1 := setSaveStatus saving c in
      let w := {| request := Z.of_nat (List.length (sent c1)); canvas_id := i;
                  sent_snapshot := getSnapshot editor |} in
      set_network (in_flight c1 ++ [w]) (sent c1 ++ [w]) c1
  | _, _ => c
  end.

(** The rest of [saveCanvas], run when request [r] settles. *)
Definition settle (r : Z) (success : bool) (c : Canvas) : Canvas :=
  if existsb (fun w => request w =? r) (in_flight c)
  then
    let c1 := set_network (filter (fun w => negb (request w =? r)) (in_flight c)) (sent c) c in
    if success then setSaveStatus saved c1
    else setSaveStatus unsaved (setError "Failed to save canvas" c1)
  else c.

Definition handleManualSave (c : Canvas) : Canvas :=
  let c1 := match pending (saveTimeoutRef c) with
            | Some h => set_saveTimeoutRef None (clearTimeout h c)
            | None => c
            end in
  saveCanvas c1.

(** The callback given to [editor.store.listen]. *)
Definition on_change (c : Canvas) : Canvas :=
  let c1 := setSaveStatus unsaved c in
  let c2 := match pending (saveTimeoutRef c1) with
            | Some h => clearTimeout h c1
            | None => c1
            end in
  let (h, c3) := setTimeout 3000 c2 in
  set_saveTimeoutRef (Some h) c3.

Definition handleMount (e : Editor) (c : Canvas) : Canvas :=
  set_editor (Some e) true c.

(** The cleanup returned by [handleMount]. *)
Definition unmount (c : Canvas) : Canvas :=
  let c1 := set_editor (editorRef c) false c in
  match pending (saveTimeoutRef c1) with
  | Some h => clearTimeout h c1
  | None => c1
  end.

(** The user edits: the document changes and, when subscribed, the
    listener runs. *)
Definition mutate (s : json) (c : Canvas) : Canvas :=
  match editorRef c with
  | Some _ =>
      let c1 := set_editor (Some {| document := s |}) (listening c) c in
      if listening c1 then on_change c1 else c1
  | None => c
  end.

Definition is_due (t : Z) (tm : Timer) : bool := due tm <=? t.

(** [dt] milliseconds pass: every timer that has come due runs its
    callback. *)
Definition advance (dt : Z) (c : Canvas) : Canvas :=
  let t := now c + dt in
  let fired := filter (is_due t) (timers c) in
  let c1 := set_timers t (filter (fun tm => negb (is_due t tm)) (timers c)) (next_handle c) c in
  fold_left (fun s _ => saveCanvas s) fired c1.

Inductive event :=
| Mount (e : Editor)
| Change (s : json)
| Elapse (dt : Z)
| ClickSave                       (* the Save Now button *)
| KeySave                         (* Ctrl+S / Cmd+S *)
| Settled (r : Z) (success : bool)
| Unmount.

Definition step (c : Canvas) (ev : event) : Canvas :=
  match ev with
  | Mount e => handleMount e c
  | Change s => mutate s c
  | Elapse dt => advance dt c
  | ClickSave =>
      match saveStatus c with
      | saving => c                (* disabled={saveStatus === 'saving'} *)
      | _ => handleManualSave c
      end
  | KeySave => handleManualSave c
  | Settled r success => settle r success c
  | Unmount => unmount c
  end.

Definition run (evs : list event) (c : Canvas) : Canvas := fold_left step evs c.

(** A burst of edits: the first one now, each later one [gap]
    milliseconds after the one before. *)
Definition burst (first : json) (rest : list (Z * json)) : list event :=
  Change first :: flat_map (fun p => [Elapse (fst p); Change (snd p)]) rest.

End Client.

(* ================================================================== *)
(** * The server: creating a canvas *)
(* ================================================================== *)

Module Creation.
Import JS Server.

(** [from('tldraw_drawings').insert({ user_id, drawing_name, snapshot: {} })
    .select().single()]: the store assigns the identifier; [id] is the
    primary key. *)
Definition insert_drawing (userId : ident) (name : jstring) (w : World)
  : result Drawing * World :=
  if existsb (eq_id (next_id w)) (drawings w)
  then (failed "duplicate key value violates unique constraint", w)
  else
    let canvas := {| d_id := next_id w; d_user_id := userId;
                     drawing_name := name; snapshot := JObj [] |} in
    (ok canvas,
     {| users := users w; profiles := profiles w;
        drawings := drawings w ++ [canvas];
        clock := clock w; next_id := N.succ (next_id w); faults := faults w |}).

(** [app.post('/api/canvases', verifyToken, ...)] after the guard; the
    argument is [req.body.drawing_name]. *)
Definition create_canvas (userId : ident) (drawing_name : option json) : Handler :=
  try_catch (
    if negb (truthy drawing_name)
    then respond 400 (Error "Canvas name required")
    else
      match drawing_name with
      | None => throw
      | Some v =>
          trimmed <- call_trim v ;;
          match trimmed with
          | [] => respond 400 (Error "Canvas name required")
          | _ :: _ =>
              r <- await (insert_drawing userId trimmed) ;;
              match error r with
              | Some _ => respond 500 (Error "Error creating canvas")
              | None => respond 201 (CanvasBody (data r))
              end
          end
      end).

Section Routes.
Variable HS256 : jstring -> Claims -> N.
Variable JWT_SECRET : option jstring.

Definition POST_canvas (req : Request) (drawing_name : option json) : Handler :=
  guarded HS256 JWT_SECRET req (fun user => create_canvas (userId user) drawing_name).
End Routes.

End Creation.

(* ================================================================== *)
(** * The client: the dashboard dialog (client/src/pages) *)
(* ================================================================== *)

Module Dashboard.
Import JS.

(** The part of the dashboard state that creating a canvas touches. *)
Record State := {
  error : string;
  createDialogOpen : bool;
  newCanvasName : jstring
}.

(** [handleCreateCanvas] up to its [await]: the state, and the
    [drawing_name] handed to [canvasApi.create] when a request is made. *)
Definition handleCreateCanvas (s : State) : State * option jstring :=
  match trim (newCanvasName s) with
  | [] => ({| error := "Canvas name is required";
              createDialogOpen := createDialogOpen s;
              newCanvasName := newCanvasName s |}, None)
  | name => (s, Some name)
  end.

End Dashboard.

(* ================================================================== *)
(** * The client: request bodies (client/src/config/api.ts) *)
(* ================================================================== *)

Module Api.
Import JS.

(** The body of [canvasApi.create(drawing_name)], as the server
    destructures it. *)
Definition create_body (drawing_name : jstring) : option json :=
  Some (JStr drawing_name).

(** The body of [canvasApi.update(id, snapshot, drawing_name)]: an
    [undefined] name is not serialised. *)
Definition update_body (snapshot : json) (drawing_name : option jstring) : Server.PatchBody :=
  {| Server.b_snapshot := Some snapshot;
     Server.b_drawing_name := option_map JStr drawing_name |}.

(** The body of the request [saveCanvas] makes:
    [canvasApi.update(id, snapshot)]. *)
Definition save_body (w : Client.Write) : Server.PatchBody :=
  update_body (Client.sent_snapshot w) None.

End Api.

(* ================================================================== *)
(** * Vocabulary of the server properties *)
(* ================================================================== *)

Module ServerSpec.
Import JS Server.

(** [id] is the primary key of [tldraw_drawings]. *)
Definition unique_ids (w : World) : Prop := NoDup (map d_id (drawings w)).

(** Document [D] exists and belongs to [A]. *)
Definition owns (w : World) (A D : ident) : Prop :=
  exists d, In d (drawings w) /\ d_id d = D /\ d_user_id d = A.

(** The next [n] backend calls work. *)
Definition healthy (n : nat) (w : World) : Prop :=
  Forall (fun f => f = Healthy) (firstn n (faults w)).

Definition not_found : response :=
  {| status := 404; body := Error "Canvas not found" |}.

Definition deleted : response :=
  {| status := 200; body := Message "Canvas deleted successfully" |}.

Definition internal_error : response :=
  {| status := 500; body := Error "Internal server error" |}.

Definition invalid_token : response :=
  {| status := 401; body := Error "Invalid token" |}.

Definition claims_of (user : AuthUser) (issued : Z) : Claims :=
  {| userId := u_id user; email := u_email user; iat := issued;
     exp := issued + 604800 |}.

Definition with_cookie (t : token) : Request :=
  {| cookies_token := Some t; authorization := None |}.

Definition with_bearer (t : token) : Request :=
  {| cookies_token := None; authorization := Some [Opaque (utf16 "Bearer"); t] |}.

Definition credentials_required : response :=
  {| status := 400; body := Error "Email and password required" |}.

Definition password_too_short : response :=
  {| status := 400; body := Error "Password must be at least 6 characters" |}.

Definition already_registered : response :=
  {| status := 400;
     body := Error "A user with this email address has already been registered" |}.

Definition user_not_found : response :=
  {| status := 404; body := Error "User not found" |}.

(** [id] is the primary key of [user_profiles]. *)
Definition unique_profiles (w : World) : Prop := NoDup (map p_id (profiles w)).

End ServerSpec.

(* ================================================================== *)
(** * Vocabulary of the client properties *)
(* ================================================================== *)

Module ClientSpec.
Import JS Client.

(** The page shows a canvas and the editor is mounted. *)
Definition mounted (i : N) (c : Canvas) : Prop :=
  id c = Some i /\ editorRef c <> None /\ listening c = true.

(** Every pending timer is the one [saveTimeoutRef] remembers. *)
Definition tracked (c : Canvas) : Prop :=
  0 < next_handle c /\
  forall t, In t (timers c) -> saveTimeoutRef c = Some (handle t) /\ handle t <> 0.

(** Just after an edit: one timer, a full debounce interval away. *)
Definition armed (i : N) (s : json) (log : list Write) (c : Canvas) : Prop :=
  id c = Some i /\ editorRef c = Some {| document := s |} /\ listening c = true /\
  0 < next_handle c /\
  (exists h, h <> 0 /\ saveTimeoutRef c = Some h /\
             timers c = [ {| handle := h; due := now c + 3000 |} ]) /\
  sent c = log.

Definition same_timers (c c' : Canvas) : Prop :=
  timers c' = timers c /\ saveTimeoutRef c' = saveTimeoutRef c /\
  next_handle c' = next_handle c.

End ClientSpec.

(* ================================================================== *)
(** * Sample data *)
(* ================================================================== *)

Module Scenario.
Import JS Server.

Definition alice : ident := 1%N.
Definition bob : ident := 2%N.
Definition trip_plan : ident := 7%N.

Definition shapes : json :=
  JObj [(utf16 "shapes", JArr [JNum 1; JNum 2])].

(** Alice owns the only canvas; the store is healthy. *)
Definition two_tenants : World :=
  {| users := []; profiles := [];
     drawings := [ {| d_id := trip_plan; d_user_id := alice;
                      drawing_name := utf16 "Trip Plan"; snapshot := JObj [] |} ];
     clock := 1000; next_id := 8%N; faults := [] |}.


Definition no_coercion : json -> option Z := fun _ => None.
Definition toy_mac : jstring -> Claims -> N :=
  fun k c => (N.of_nat (List.length k) + userId c + Z.to_N (exp c))%N.
Definition secret : jstring := utf16 "s3cret".

Definition credentials : AuthBody :=
  {| b_email := Some (JStr (utf16 "u1@example.org"));
     b_password := Some (JStr (utf16 "hunter22")) |}.

(** An empty store in which the second backend call (the profile insert
    of a sign-up) is refused. *)
Definition profile_insert_fails : World :=
  {| users := []; profiles := []; drawings := [];
     clock := 1000; next_id := 1%N; faults := [Healthy; Rejects] |}.

Definition empty_store : World :=
  {| users := []; profiles := []; drawings := [];
     clock := 1000; next_id := 1%N; faults := [] |}.

Definition u1 : AuthUser :=
  {| u_id := 1%N; u_email := utf16 "u1@example.org";
     u_password := utf16 "hunter22"; u_created_at := 1000 |}.
End Scenario.

Module ClientScenario.
Import JS Client.

(** A canvas whose first debounced write is in flight. *)
Definition editing : Canvas :=
  run [Mount {| document := JObj [] |}; Change (JObj [(utf16 "shapes", JArr [JNum 1])]);
       Elapse 3000]
      (init (Some 7%N)).

Definition mounted_canvas : Canvas :=
  handleMount {| document := JObj [] |} (init (Some 7%N)).

Definition stroke (n : Z) : json := JObj [(utf16 "shapes", JArr [JNum n])].
End ClientScenario.

(* ================================================================== *)
(** * Vocabulary and sample data of the further properties *)
(* ================================================================== *)

Module ExtraSpec.
Import JS Server Creation ServerSpec.

Definition name_required : response :=
  {| status := 400; body := Error "Canvas name required" |}.

Definition no_fields : response :=
  {| status := 400; body := Error "No fields to update" |}.

Definition update_failed : response :=
  {| status := 500; body := Error "Error updating canvas" |}.

Definition no_token : response :=
  {| status := 401; body := Error "No token provided" |}.

Definition invalid_credentials : response :=
  {| status := 401; body := Error "Invalid login credentials" |}.

(** The canvas a successful POST creates for [userId] in [w]. *)
Definition new_canvas (userId : ident) (name : jstring) (w : World) : Drawing :=
  {| d_id := next_id w; d_user_id := userId; drawing_name := name;
     snapshot := JObj [] |}.

(** The store has not handed out [next_id] yet. *)
Definition fresh_id (w : World) : Prop :=
  existsb (eq_id (next_id w)) (drawings w) = false.

(** A JSON value that is not a string. *)
Definition not_a_string (v : json) : Prop :=
  match v with JStr _ => False | _ => True end.

(** The rows of [w] that do not belong to [userId]. *)
Definition rows_of_others (userId : ident) (w : World) : list Drawing :=
  filter (fun d => negb (eq_user_id userId d)) (drawings w).

(** A sign-up body the handler and a working identity store accept:
    a fresh address [e] and a password [p] of six code units or more. *)
Definition acceptable (b : AuthBody) (e p : jstring) (w : World) : Prop :=
  b_email b = Some (JStr e) /\ b_password b = Some (JStr p) /\
  e <> [] /\ (6 <= List.length p)%nat /\
  existsb (has_email e) (users w) = false /\ next_fault w = Healthy.

(** The user the identity store registers for it. *)
Definition registered (e p : jstring) (w : World) : AuthUser :=
  {| u_id := next_id w; u_email := e; u_password := p; u_created_at := clock w |}.

(** The world once the identity store has registered [u]; one backend
    call has been made. *)
Definition with_user (u : AuthUser) (w : World) : World :=
  {| users := u :: users w; profiles := profiles w; drawings := drawings w;
     clock := clock w; next_id := N.succ (next_id w); faults := tl (faults w) |}.

(** The profile a sign-up or a sign-in inserts for [u] at time [t]. *)
Definition profile_of (u : AuthUser) (t : Z) : Profile :=
  {| p_id := u_id u; p_email := u_email u; full_name := JNull; avatar_url := JNull;
     p_created_at := t; p_updated_at := t |}.

(** The token [generateToken] signs for [u] at time [t] under [k]. *)
Definition token_for (HS256 : jstring -> Claims -> N) (k : jstring)
  (u : AuthUser) (t : Z) : token :=
  Signed (claims_of u t) (HS256 k (claims_of u t)).

(** A store in which [u1] is registered and has no profile yet. *)
Definition registered_store : World :=
  {| users := [Scenario.u1]; profiles := []; drawings := [];
     clock := 2000; next_id := 2%N; faults := [] |}.

(** The two-tenant store when the second backend call is refused. *)
Definition write_refused : World :=
  {| users := []; profiles := []; drawings := drawings Scenario.two_tenants;
     clock := 1000; next_id := 8%N; faults := [Healthy; Rejects] |}.

(** Alice with her profile and her canvas, beside a canvas of Bob. *)
Definition alice_home : World :=
  {| users := [];
     profiles := [ {| p_id := Scenario.alice; p_email := utf16 "alice@example.org";
                      full_name := JNull; avatar_url := JNull;
                      p_created_at := 900; p_updated_at := 900 |} ];
     drawings := drawings Scenario.two_tenants
                 ++ [ {| d_id := 9%N; d_user_id := Scenario.bob;
                         drawing_name := utf16 "Bob's"; snapshot := JObj [] |} ];
     clock := 1000; next_id := 10%N; faults := [] |}.

(** The two-tenant store eight days later. *)
Definition next_week : World :=
  {| users := users Scenario.two_tenants; profiles := profiles Scenario.two_tenants;
     drawings := drawings Scenario.two_tenants;
     clock := 1000 + 8 * 24 * 60 * 60; next_id := 8%N; faults := [] |}.

(** A string that does not begin with white space. *)
Definition clean_start (s : jstring) : Prop :=
  match s with
  | c :: _ => is_space c = false
  | [] => True
  end.

End ExtraSpec.

Module ClientExtraSpec.
Import JS Client.

(** Events that can still arrive once the editor is torn down: time
    passing, late edits, requests settling. *)
Definition after_teardown (ev : event) : Prop :=
  match ev with
  | Elapse _ | Change _ | Settled _ _ | Unmount => True
  | Mount _ | ClickSave | KeySave => False
  end.

Definition not_mount (ev : event) : Prop :=
  match ev with Mount _ => False | _ => True end.

(** The request [saveCanvas] issues in state [c] for canvas [i] and
    editor [e]. *)
Definition next_write (i : N) (e : Editor) (c : Canvas) : Write :=
  {| request := Z.of_nat (List.length (sent c)); canvas_id := i;
     sent_snapshot := getSnapshot e |}.

(** A canvas with an edit waiting for its debounce timer. *)
Definition edited_canvas : Canvas :=
  run [Mount {| document := JObj [] |}; Change (ClientScenario.stroke 1)]
      (init (Some 7%N)).

End ClientExtraSpec.

(* ================================================================== *)
(** * Properties of the server *)
(* ================================================================== *)

Module ServerFacts.
Import JS Server ServerSpec.

Lemma healthy_next n w : healthy (S n) w -> next_fault w = Healthy.
Proof.
  unfold healthy, next_fault. destruct (faults w) as [|f fs]; simpl; auto.
  intros H. inversion H; auto.
Qed.

Lemma healthy_consume n w : healthy (S n) w -> healthy n (consume w).
Proof.
  unfold healthy. simpl. destruct (faults w) as [|f fs]; simpl.
  - intros _. destruct n; constructor.
  - intros H. inversion H; auto.
Qed.

Lemma filter_none {A} (p : A -> bool) l :
  (forall x, In x l -> p x = false) -> filter p l = [].
Proof.
  induction l as [|a l IH]; simpl; intros H; auto.
  rewrite (H a (or_introl eq_refl)). apply IH. intros x Hx. apply H. now right.
Qed.

Lemma key_injective ds (d d' : Drawing) :
  NoDup (map d_id ds) -> In d ds -> In d' ds -> d_id d = d_id d' -> d = d'.
Proof.
  induction ds as [|a ds IH]; simpl; intros Hnd Hd Hd' Heq; [contradiction|].
  inversion Hnd as [|? ? Hnotin Hnd']; subst.
  destruct Hd as [->|Hd], Hd' as [->|Hd']; auto.
  - exfalso. apply Hnotin. rewrite Heq. now apply in_map.
  - exfalso. apply Hnotin. rewrite <- Heq. now apply in_map.
Qed.

(** A filter that only accepts rows with the key of [d] selects [d]
    alone. *)
Lemma filter_by_key (p : Drawing -> bool) ds d :
  NoDup (map d_id ds) -> In d ds -> p d = true ->
  (forall x, p x = true -> d_id x = d_id d) ->
  filter p ds = [d].
Proof.
  induction ds as [|a ds IH]; simpl; intros Hnd Hin Hp Hkey; [contradiction|].
  inversion Hnd as [|? ? Hnotin Hnd']; subst.
  destruct Hin as [->|Hin].
  - rewrite Hp. f_equal. apply filter_none. intros x Hx.
    destruct (p x) eqn:E; auto. exfalso. apply Hnotin.
    rewrite <- (Hkey x E). now apply in_map.
  - destruct (p a) eqn:E.
    + exfalso. apply Hnotin. rewrite (Hkey a E). now apply in_map.
    + now apply IH.
Qed.

Lemma owned_true c u d : owned c u d = true <-> d_id d = c /\ d_user_id d = u.
Proof.
  unfold owned, eq_id, eq_user_id. rewrite andb_true_iff, !N.eqb_eq. tauto.
Qed.

Lemma foreign_filter w A B D :
  unique_ids w -> owns w A D -> A <> B ->
  filter (owned D B) (drawings w) = [].
Proof.
  intros Hu (d & Hin & Hid & Hown) Hne. apply filter_none. intros x Hx.
  destruct (owned D B x) eqn:E; auto. apply owned_true in E. destruct E as [E1 E2].
  assert (x = d) by (apply (key_injective (drawings w)); auto; congruence).
  subst x. congruence.
Qed.

Lemma own_filter w d :
  unique_ids w -> In d (drawings w) ->
  filter (owned (d_id d) (d_user_id d)) (drawings w) = [d].
Proof.
  intros Hu Hin. apply filter_by_key; auto.
  - apply owned_true. auto.
  - intros x Hx. apply owned_true in Hx. tauto.
Qed.

Lemma id_filter w d :
  unique_ids w -> In d (drawings w) ->
  filter (eq_id (d_id d)) (drawings w) = [d].
Proof.
  intros Hu Hin. apply filter_by_key; auto.
  - unfold eq_id. apply N.eqb_refl.
  - intros x Hx. unfold eq_id in Hx. now apply N.eqb_eq in Hx.
Qed.

(** What the three canvas handlers do when the ownership filter selects
    nothing. *)
Lemma get_no_row u c w :
  filter (owned c u) (drawings w) = [] -> next_fault w <> Crashes ->
  get_canvas u c w = (not_found, consume w).
Proof.
  intros Hf Hc. unfold get_canvas, try_catch, bind, await, select_owned.
  destruct (next_fault w); try congruence; simpl; try rewrite Hf; reflexivity.
Qed.

Lemma update_no_row u c b w :
  filter (owned c u) (drawings w) = [] -> next_fault w <> Crashes ->
  update_canvas u c b w = (not_found, consume w).
Proof.
  intros Hf Hc. unfold update_canvas, try_catch, bind, await, select_owned.
  destruct (next_fault w); try congruence; simpl; try rewrite Hf; reflexivity.
Qed.

Lemma delete_healthy u c w :
  next_fault w = Healthy ->
  delete_canvas u c w =
    (deleted,
     with_drawings (filter (fun d => negb (owned c u d)) (drawings w)) (consume w)).
Proof.
  intros Hh. unfold delete_canvas, try_catch, bind, await, delete_owned.
  rewrite Hh. reflexivity.
Qed.

Lemma filter_all {A} (p : A -> bool) l :
  (forall x, In x l -> p x = true) -> filter p l = l.
Proof.
  induction l as [|a l IH]; simpl; intros H; auto.
  rewrite (H a (or_introl eq_refl)). f_equal. apply IH. intros x Hx. apply H. now right.
Qed.

Lemma filter_negb_of_nil {A} (p : A -> bool) l :
  filter p l = [] -> filter (fun x => negb (p x)) l = l.
Proof.
  intros H. apply filter_all. intros x Hx.
  destruct (p x) eqn:E; auto.
  assert (In x (filter p l)) by (apply filter_In; auto).
  rewrite H in *. contradiction.
Qed.

Lemma filter_after_negb {A} (p : A -> bool) l :
  filter p (filter (fun x => negb (p x)) l) = [].
Proof.
  apply filter_none. intros x Hx. apply filter_In in Hx.
  destruct Hx as [_ Hx]. now destruct (p x).
Qed.


Import Scenario.

(** ** Ownership scoping *)

(** C1 (as amended): for identities A and B with A different from B and a
    document D owned by A, get(B, D) and update(B, D, fields) answer 404
    "Canvas not found" whenever the store answers at all, and never
    succeed; delete(B, D) on a working store answers 200 with the success
    message and deletes nothing. *)
Theorem foreign_access :
  forall w A B D fields,
    unique_ids w -> owns w A D -> A <> B ->
    (next_fault w <> Crashes ->
       get_canvas B D w = (not_found, consume w) /\
       update_canvas B D fields w = (not_found, consume w)) /\
    (next_fault w = Healthy ->
       fst (delete_canvas B D w) = deleted /\
       drawings (snd (delete_canvas B D w)) = drawings w).
Proof.
  intros w A B D fields Hu Ho Hne.
  pose proof (foreign_filter w A B D Hu Ho Hne) as Hf.
  split.
  - intros Hc. split.
    + now apply get_no_row.
    + now apply update_no_row.
  - intros Hh. rewrite (delete_healthy B D w Hh). simpl. split; auto.
    now apply filter_negb_of_nil.
Qed.

Lemma foreign_access_witness :
  get_canvas bob trip_plan two_tenants = (not_found, consume two_tenants) /\
  fst (delete_canvas bob trip_plan two_tenants) = deleted.
Proof.
  destruct (foreign_access two_tenants alice bob trip_plan
              {| b_snapshot := Some JNull; b_drawing_name := None |}) as [H1 H2].
  - unfold unique_ids. simpl. constructor; [intros [] | constructor].
  - eexists. split; [left; reflexivity | split; reflexivity].
  - discriminate.
  - split.
    + apply H1. discriminate.
    + apply H2. reflexivity.
Defined.

(** C1 as stated fails for delete: Bob deleting Alice's canvas is answered
    200, not 404. *)
Lemma foreign_delete_is_not_404 :
  owns two_tenants alice trip_plan /\ alice <> bob /\
  fst (delete_canvas bob trip_plan two_tenants) = deleted /\
  status (fst (delete_canvas bob trip_plan two_tenants)) <> 404.
Proof.
  split; [|split; [|split]].
  - eexists. split; [left; reflexivity | split; reflexivity].
  - discriminate.
  - reflexivity.
  - discriminate.
Qed.

(** C9: delete(ownerId, docId) on a working store always answers 200
    with the success message, whether or not a row matched; afterwards no
    row matches, so a repeated delete removes nothing; when no row matched
    the table is as before.  It fails exactly when the store itself
    fails, with 500 and an unchanged table. *)
Theorem delete_idempotent_in_effect :
  forall w u c,
    (next_fault w = Healthy ->
       fst (delete_canvas u c w) = deleted /\
       filter (owned c u) (drawings (snd (delete_canvas u c w))) = [] /\
       (filter (owned c u) (drawings w) = [] ->
          drawings (snd (delete_canvas u c w)) = drawings w)) /\
    (next_fault w <> Healthy ->
       status (fst (delete_canvas u c w)) = 500 /\
       drawings (snd (delete_canvas u c w)) = drawings w) /\
    (fst (delete_canvas u c w) <> deleted -> next_fault w <> Healthy).
Proof.
  intros w u c. split; [|split].
  - intros Hh. rewrite (delete_healthy u c w Hh). simpl.
    split; [reflexivity|]. split.
    + apply filter_after_negb.
    + apply filter_negb_of_nil.
  - intros Hn. unfold delete_canvas, try_catch, bind, await.
    destruct (next_fault w); [congruence | |]; simpl; auto.
  - intros Hr Hh. apply Hr. now rewrite (delete_healthy u c w Hh).
Qed.

Lemma delete_idempotent_in_effect_witness :
  fst (delete_canvas alice 99%N two_tenants) = deleted /\
  drawings (snd (delete_canvas alice 99%N two_tenants)) = drawings two_tenants.
Proof.
  destruct (delete_idempotent_in_effect two_tenants alice 99%N) as [H _].
  destruct (H eq_refl) as (H1 & _ & H3).
  split; [exact H1 | apply H3; reflexivity].
Defined.

(** C10: an owner's PATCH whose body carries drawing_name: null is
    answered 500 "Internal server error" (trim on null throws and the
    outer catch answers), and nothing is written. *)
Theorem patch_null_name_is_500 :
  forall w u c b d,
    next_fault w = Healthy ->
    filter (owned c u) (drawings w) = [d] ->
    b_drawing_name b = Some JNull ->
    update_canvas u c b w = (internal_error, consume w).
Proof.
  intros w u c b d Hh Hf Hn.
  unfold update_canvas, try_catch, bind, await, select_owned.
  rewrite Hh. simpl. rewrite Hf. simpl. rewrite Hn. reflexivity.
Qed.

Lemma patch_null_name_is_500_witness :
  update_canvas alice trip_plan
    {| b_snapshot := None; b_drawing_name := Some JNull |} two_tenants
  = (internal_error, consume two_tenants).
Proof.
  eapply (patch_null_name_is_500 two_tenants alice trip_plan); reflexivity.
Defined.





(** ** Session tokens *)

Lemma sign_configured HS256 k user now :
  k <> [] ->
  jwt_sign HS256 (u_id user) (u_email user) (Some k) now
  = Some (Signed (claims_of user now) (HS256 k (claims_of user now))).
Proof. intros Hk. unfold jwt_sign. destruct k; [congruence | reflexivity]. Qed.

(** C6: the token issued for an identity verifies at once, and at any
    time before its expiry, to the claims of that identity; from the
    expiry instant (issue time plus seven days) on, the guard answers 401
    "Invalid token".  Cookie and bearer header behave alike. *)
Theorem token_valid_until_expiry :
  forall HS256 k user w0,
    k <> [] ->
    exists tok,
      generateToken HS256 (Some k) user w0 = Done tok w0 /\
      verifyToken HS256 (Some k) (with_cookie tok) w0 = inr (claims_of user (clock w0)) /\
      forall req w1,
        req = with_cookie tok \/ req = with_bearer tok ->
        (clock w1 < clock w0 + 7 * 24 * 60 * 60 ->
           verifyToken HS256 (Some k) req w1 = inr (claims_of user (clock w0))) /\
        (clock w0 + 7 * 24 * 60 * 60 <= clock w1 ->
           verifyToken HS256 (Some k) req w1 = inl invalid_token).
Proof.
  intros HS256 k user w0 Hk.
  exists (Signed (claims_of user (clock w0)) (HS256 k (claims_of user (clock w0)))).
  assert (Hv : forall req w1,
             req = with_cookie (Signed (claims_of user (clock w0))
                                       (HS256 k (claims_of user (clock w0)))) \/
             req = with_bearer (Signed (claims_of user (clock w0))
                                       (HS256 k (claims_of user (clock w0)))) ->
             verifyToken HS256 (Some k) req w1
             = if clock w0 + 604800 <=? clock w1 then inl invalid_token
               else inr (claims_of user (clock w0))).
  { intros req w1 [-> | ->]; unfold verifyToken, jwt_verify;
      (destruct k as [|k0 k']; [congruence|]); simpl;
      rewrite N.eqb_refl; simpl;
      destruct (clock w0 + 604800 <=? clock w1); reflexivity. }
  split; [|split].
  - unfold generateToken. rewrite (sign_configured HS256 k user _ Hk). reflexivity.
  - rewrite Hv by (left; reflexivity).
    destruct (Z.leb_spec (clock w0 + 604800) (clock w0)); [lia | reflexivity].
  - intros req w1 Hreq. rewrite (Hv req w1 Hreq).
    change (7 * 24 * 60 * 60) with 604800.
    split; intros Ht;
      destruct (Z.leb_spec (clock w0 + 604800) (clock w1)); (lia || reflexivity).
Qed.

Lemma token_valid_until_expiry_witness :
  exists tok,
    generateToken toy_mac (Some secret) u1 empty_store = Done tok empty_store /\
    verifyToken toy_mac (Some secret) (with_cookie tok) empty_store
    = inr (claims_of u1 1000).
Proof.
  destruct (token_valid_until_expiry toy_mac secret u1 empty_store)
    as (tok & H1 & H2 & _); [discriminate|].
  exists tok. split; assumption.
Defined.

(** ** Sign-up *)

Lemma password_check ToNumber p :
  less_than ToNumber (length_of (JStr p)) 6 = (Z.of_nat (List.length p) <? 6).
Proof. reflexivity. Qed.

Lemma signup_missing ToNumber HS256 sec b w :
  truthy (b_email b) = false \/ truthy (b_password b) = false ->
  signup ToNumber HS256 sec b w = (credentials_required, w).
Proof.
  intros H. unfold signup, try_catch.
  destruct H as [-> | ->]; rewrite ?orb_true_r; reflexivity.
Qed.

Lemma signup_short ToNumber HS256 sec b w p :
  truthy (b_email b) = true -> b_password b = Some (JStr p) -> p <> [] ->
  (List.length p < 6)%nat ->
  signup ToNumber HS256 sec b w = (password_too_short, w).
Proof.
  intros He Hp Hne Hlen. unfold signup, try_catch, bind, get_length.
  rewrite He, Hp. destruct p as [|c p]; [congruence|].
  cbn [truthy negb orb ret]. rewrite password_check.
  destruct (Z.ltb_spec (Z.of_nat (List.length (c :: p))) 6); [reflexivity | lia].
Qed.

Ltac past_validation He Hp Hlen :=
  unfold signup, try_catch, bind, get_length;
  rewrite He, Hp;
  match type of Hp with
  | _ = Some (JStr ?p) =>
      destruct p; [simpl in Hlen; lia|];
      cbn [truthy negb orb ret]; rewrite password_check;
      match goal with
      | |- context [Z.of_nat ?n <? 6] =>
          destruct (Z.ltb_spec (Z.of_nat n) 6); [lia|]
      end
  end;
  unfold await.

Lemma createUser_result e p w :
  (exists msg, fst (createUser e p w) = failed msg /\ snd (createUser e p w) = w /\
               (msg = "A user with this email address has already been registered"%string \/
                msg = "Invalid credentials format"%string)) \/
  (exists user, fst (createUser e p w) = ok user /\
                users (snd (createUser e p w)) = user :: users w /\
                profiles (snd (createUser e p w)) = profiles w /\
                clock (snd (createUser e p w)) = clock w /\
                faults (snd (createUser e p w)) = faults w /\
                e = Some (JStr (u_email user)) /\
                existsb (has_email (u_email user)) (users w) = false).
Proof.
  unfold createUser.
  destruct e as [[]|]; simpl; try (left; eexists; repeat split; auto; fail).
  destruct p as [[]|]; simpl; try (left; eexists; repeat split; auto; fail).
  destruct (existsb _ _) eqn:E; simpl.
  - left; eexists; repeat split; auto.
  - right. eexists. repeat split; auto.
Qed.

(** C8: a sign-up whose password is a string of fewer than 6 code units
    is always answered 400 with a validation message, before any backend
    call; with 6 or more the length message is never the answer, and a
    400 then comes from a missing email or from the identity store. *)
Theorem password_length_rule :
  forall ToNumber HS256 sec b w p,
    b_password b = Some (JStr p) ->
    ((List.length p < 6)%nat ->
       snd (signup ToNumber HS256 sec b w) = w /\
       (fst (signup ToNumber HS256 sec b w) = credentials_required \/
        fst (signup ToNumber HS256 sec b w) = password_too_short)) /\
    ((6 <= List.length p)%nat ->
       fst (signup ToNumber HS256 sec b w) <> password_too_short /\
       (status (fst (signup ToNumber HS256 sec b w)) = 400 ->
          truthy (b_email b) = false \/
          next_fault w = Rejects \/
          error (fst (createUser (b_email b) (b_password b) (consume w))) <> None)).
Proof.
  intros ToNumber HS256 sec b w p Hp. split; intros Hlen.
  - destruct (truthy (b_email b)) eqn:He.
    + destruct p as [|c p].
      * rewrite signup_missing by (right; rewrite Hp; reflexivity). auto.
      * rewrite (signup_short _ _ _ _ _ (c :: p)); auto. discriminate.
    + rewrite signup_missing by auto. auto.
  - destruct (truthy (b_email b)) eqn:He.
    2:{ rewrite signup_missing by auto. split; [discriminate | auto]. }
    rewrite Hp.
    past_validation He Hp Hlen.
    destruct (next_fault w) eqn:F1.
    + destruct (createUser_result (b_email b) (Some (JStr (n :: p))) (consume w))
        as [(msg & Hr & _ & Hmsg) | (user & Hr & _)];
        destruct (createUser _ _ _) as [r w1]; simpl in Hr; subst r; simpl.
      * split; [destruct Hmsg as [-> | ->]; discriminate |].
        intros _. right. right. discriminate.
      * unfold generateToken.
        destruct (next_fault w1); simpl;
          try destruct (insert_profile _ _ _) as [r2 w2];
          try destruct (jwt_sign _ _ _ _ _); simpl;
          (split; [discriminate | intros [=]]).
    + simpl. split; [discriminate | auto].
    + simpl. split; [discriminate | intros [=]].
Qed.

Lemma password_length_rule_witness :
  fst (signup no_coercion toy_mac (Some secret)
         {| b_email := Some (JStr (utf16 "u1@example.org"));
            b_password := Some (JStr (utf16 "abc")) |} empty_store)
  = password_too_short /\
  fst (signup no_coercion toy_mac (Some secret) credentials empty_store)
  <> password_too_short.
Proof.
  split.
  - destruct (password_length_rule no_coercion toy_mac (Some secret)
                {| b_email := Some (JStr (utf16 "u1@example.org"));
                   b_password := Some (JStr (utf16 "abc")) |}
                empty_store (utf16 "abc") eq_refl) as [H _].
    destruct H as [_ [H | H]]; [simpl; lia | discriminate H | exact H].
  - destruct (password_length_rule no_coercion toy_mac (Some secret)
                credentials empty_store (utf16 "hunter22") eq_refl) as [_ H].
    apply H. simpl. lia.
Defined.

Lemma get_length_truthy x :
  truthy (Some x) = true -> get_length (Some x) = ret (length_of x).
Proof. destruct x; simpl; intros; (reflexivity || discriminate). Qed.

Lemma insert_profile_frame uid e w :
  users (snd (insert_profile uid e w)) = users w /\
  clock (snd (insert_profile uid e w)) = clock w /\
  faults (snd (insert_profile uid e w)) = faults w.
Proof. unfold insert_profile. destruct (existsb _ _); simpl; auto. Qed.

(** C7 (as amended): POST /auth/signup never answers 201; a successful
    sign-up answers 200 with a body {user: {id, email, created_at}, token}
    for the user just registered, the token being the one signed for that
    user; missing credentials and a short password are answered 400, and
    so is an address the identity store already holds; on a working store
    a fresh address with a valid password succeeds. *)
Theorem signup_responses :
  forall ToNumber HS256 sec b w,
    let out := signup ToNumber HS256 sec b w in
    status (fst out) <> 201 /\
    (status (fst out) = 200 ->
       exists user tok,
         body (fst out) = SessionBody (session_user user) tok /\
         users (snd out) = user :: users w /\
         b_email b = Some (JStr (u_email user)) /\
         jwt_sign HS256 (u_id user) (u_email user) sec (clock w) = Some tok) /\
    (truthy (b_email b) = false \/ truthy (b_password b) = false ->
       fst out = credentials_required) /\
    (forall x,
       truthy (b_email b) = true -> b_password b = Some x -> truthy (Some x) = true ->
       less_than ToNumber (length_of x) 6 = true ->
       fst out = password_too_short) /\
    (forall e p,
       b_email b = Some (JStr e) -> b_password b = Some (JStr p) ->
       e <> [] -> (6 <= List.length p)%nat ->
       next_fault w = Healthy ->
       (existsb (has_email e) (users w) = true -> fst out = already_registered) /\
       (existsb (has_email e) (users w) = false ->
        next_fault (consume w) <> Crashes ->
        (exists k, sec = Some k /\ k <> []) ->
        status (fst out) = 200)).
Proof.
  intros ToNumber HS256 sec b w out.
  assert (Hgen : status (fst out) <> 201 /\
    (status (fst out) = 200 ->
       exists user tok,
         body (fst out) = SessionBody (session_user user) tok /\
         users (snd out) = user :: users w /\
         b_email b = Some (JStr (u_email user)) /\
         jwt_sign HS256 (u_id user) (u_email user) sec (clock w) = Some tok)).
  { unfold out, signup, try_catch, bind.
    destruct (truthy (b_email b)) eqn:He; [|simpl; split; [discriminate | intros [=]]].
    destruct (truthy (b_password b)) eqn:Tp; [|simpl; split; [discriminate | intros [=]]].
    destruct (b_password b) as [x|] eqn:Hp; [|discriminate].
    rewrite (get_length_truthy x Tp). cbn [negb orb ret].
    destruct (less_than ToNumber (length_of x) 6); [simpl; split; [discriminate | intros [=]]|].
    unfold await.
    destruct (next_fault w); [| simpl; split; [discriminate | intros [=]] ..].
    destruct (createUser_result (b_email b) (Some x) (consume w))
      as [(msg & Hr & _) | (user & Hr & Hu & _ & Hc & _ & Hem & _)];
      destruct (createUser _ _ _) as [r w1]; simpl in Hr; subst r; simpl in *.
    - split; [discriminate | intros [=]].
    - unfold generateToken.
      pose proof (insert_profile_frame (u_id user) (u_email user) (consume w1))
        as (Hiu & Hic & _).
      destruct (next_fault w1); simpl;
        try destruct (insert_profile _ _ _) as [r2 w2]; simpl in *.
      + rewrite Hic, Hc.
        destruct (jwt_sign _ _ _ _ _) as [tok|] eqn:Hs; simpl;
          (split; [discriminate | intros E; try discriminate E]).
        exists user, tok. rewrite Hiu. auto.
      + rewrite Hc.
        destruct (jwt_sign _ _ _ _ _) as [tok|] eqn:Hs; simpl;
          (split; [discriminate | intros E; try discriminate E]).
        exists user, tok. auto.
      + split; [discriminate | intros [=]]. }
  destruct Hgen as [H1 H2]. split; [exact H1|]. split; [exact H2|].
  split; [|split].
  - intros H. unfold out. now rewrite signup_missing.
  - intros x He Hp Tp L. unfold out, signup, try_catch, bind.
    rewrite He, Hp, Tp, (get_length_truthy x Tp). cbn [negb orb ret].
    rewrite L. reflexivity.
  - intros e p Hem Hp Hne Hlen Hh.
    assert (He : truthy (b_email b) = true)
      by (rewrite Hem; destruct e; [congruence | reflexivity]).
    split.
    + intros Hex. unfold out. past_validation He Hp Hlen.
      rewrite Hh, Hem. unfold createUser.
      change (users (consume w)) with (users w). rewrite Hex. reflexivity.
    + intros Hex Hnc (k & -> & Hk). unfold out. past_validation He Hp Hlen.
      rewrite Hh, Hem. unfold createUser.
      change (users (consume w)) with (users w). rewrite Hex.
      cbn [error data ok]. unfold generateToken, jwt_sign.
      destruct k as [|k0 k]; [congruence|].
      match goal with
      | |- context [next_fault ?x] =>
          change (next_fault x) with (next_fault (consume w))
      end.
      destruct (next_fault (consume w)); [| |congruence]; simpl;
        try destruct (insert_profile _ _ _); reflexivity.
Qed.

Lemma signup_responses_witness :
  status (fst (signup no_coercion toy_mac (Some secret) credentials empty_store)) = 200.
Proof.
  destruct (signup_responses no_coercion toy_mac (Some secret) credentials empty_store)
    as (_ & _ & _ & _ & H).
  destruct (H (utf16 "u1@example.org") (utf16 "hunter22") eq_refl eq_refl) as [_ H'].
  - discriminate.
  - simpl. lia.
  - reflexivity.
  - apply H'.
    + reflexivity.
    + discriminate.
    + exists secret. split; [reflexivity | discriminate].
Defined.

(** C7 as stated fails: a successful sign-up is answered 200, not 201. *)
Lemma signup_success_is_200 :
  exists tok,
    fst (signup no_coercion toy_mac (Some secret) credentials empty_store)
    = {| status := 200; body := SessionBody (session_user u1) tok |} /\
    status (fst (signup no_coercion toy_mac (Some secret) credentials empty_store)) <> 201.
Proof.
  eexists. split; [vm_compute; reflexivity | vm_compute; discriminate].
Qed.

Lemma profile_filter_cases ps uid :
  NoDup (map p_id ps) ->
  filter (eq_profile_id uid) ps = [] \/
  exists p, filter (eq_profile_id uid) ps = [p] /\ p_id p = uid.
Proof.
  induction ps as [|a ps IH]; simpl; intros Hnd; [now left|].
  inversion Hnd as [|? ? Hnotin Hnd']; subst.
  destruct (eq_profile_id uid a) eqn:E.
  - right. exists a. unfold eq_profile_id in E. apply N.eqb_eq in E. split; auto.
    f_equal. apply filter_none. intros x Hx.
    destruct (eq_profile_id uid x) eqn:Ex; auto.
    unfold eq_profile_id in Ex. apply N.eqb_eq in Ex.
    exfalso. apply Hnotin. rewrite E, <- Ex. now apply in_map.
  - now apply IH.
Qed.

Lemma existsb_filter_nil {A} (p : A -> bool) l :
  filter p l = [] -> existsb p l = false.
Proof.
  induction l as [|a l IH]; simpl; auto.
  destruct (p a); [discriminate | auto].
Qed.

Lemma me_reads_only uid w :
  users (snd (me uid w)) = users w /\
  profiles (snd (me uid w)) = profiles w /\
  drawings (snd (me uid w)) = drawings w.
Proof.
  unfold me, try_catch, bind, await, select_profile_with_drawings.
  destruct (next_fault w); simpl; auto.
  destruct (single _) as [[[p ds]|] [msg|]]; simpl; auto.
Qed.

Lemma me_no_profile uid w :
  filter (eq_profile_id uid) (profiles w) = [] -> next_fault w <> Crashes ->
  fst (me uid w) = user_not_found.
Proof.
  intros Hf Hc. unfold me, try_catch, bind, await, select_profile_with_drawings.
  destruct (next_fault w); try congruence; simpl; try rewrite Hf; reflexivity.
Qed.

Lemma me_with_profile uid p w :
  filter (eq_profile_id uid) (profiles w) = [p] -> next_fault w = Healthy ->
  fst (me uid w)
  = {| status := 200; body := MeBody p (filter (eq_user_id (p_id p)) (drawings w)) |}.
Proof.
  intros Hf Hh. unfold me, try_catch, bind, await, select_profile_with_drawings.
  rewrite Hh. simpl. rewrite Hf. reflexivity.
Qed.

Lemma healthy_weaken n w : healthy (S n) w -> healthy n w.
Proof.
  unfold healthy. generalize (faults w).
  induction n as [|n IH]; intros l H; [constructor|].
  destruct l as [|a l]; [constructor|].
  change (Forall (fun f => f = Healthy) (a :: firstn (S n) l)) in H.
  change (Forall (fun f => f = Healthy) (a :: firstn n l)).
  inversion H; subst. constructor; auto.
Qed.

(** A successful sign-in leaves either the profile it found or the one
    it has just inserted. *)
Lemma signin_outcome HS256 sec b w out :
  unique_profiles w -> healthy 3 w ->
  out = signin HS256 sec b w -> status (fst out) = 200 ->
  exists u tok,
    fst out = {| status := 200; body := SessionBody (session_user u) tok |} /\
    ((exists p, filter (eq_profile_id (u_id u)) (profiles w) = [p] /\
                snd out = consume (consume w)) \/
     (exists p, filter (eq_profile_id (u_id u)) (profiles w) = [] /\
                p_id p = u_id u /\
                snd out = with_profiles (profiles w ++ [p])
                            (consume (consume (consume w))))).
Proof.
  intros Hu Hh Hout.
  pose proof (healthy_next _ _ Hh) as F1.
  pose proof (healthy_consume _ _ Hh) as Hh2.
  pose proof (healthy_next _ _ Hh2) as F2.
  pose proof (healthy_consume _ _ Hh2) as Hh3.
  pose proof (healthy_next _ _ Hh3) as F3.
  unfold signin, try_catch, bind in Hout.
  destruct (negb (truthy (b_email b)) || negb (truthy (b_password b)));
    [subst out; simpl; discriminate|].
  unfold await in Hout. rewrite F1 in Hout.
  assert (Hw : snd (signInWithPassword (b_email b) (b_password b) (consume w)) = consume w).
  { unfold signInWithPassword. destruct (b_email b) as [[]|]; auto.
    destruct (b_password b) as [[]|]; auto. destruct (filter _ _); auto. }
  destruct (signInWithPassword _ _ _) as [[[u|] [msg|]] w1]; simpl in Hw; subst w1;
    cbn [error data] in Hout; try (subst out; simpl; discriminate).
  unfold select_profile in Hout. rewrite F2 in Hout. cbn [error data fst snd] in Hout.
  change (profiles (consume (consume w))) with (profiles w) in Hout.
  unfold generateToken in Hout.
  destruct (profile_filter_cases (profiles w) (u_id u) Hu) as [Hf | (p & Hf & Hp)];
    rewrite Hf in Hout; cbn [single data ok failed ret] in Hout.
  - rewrite F3 in Hout. unfold insert_profile in Hout.
    change (profiles (consume (consume (consume w)))) with (profiles w) in Hout.
    rewrite (existsb_filter_nil _ _ Hf) in Hout.
    cbn [with_profiles clock] in Hout.
    destruct (jwt_sign _ _ _ _ _) as [t|]; subst out; simpl; try discriminate.
    intros _. exists u, t. split; [reflexivity|]. right.
    eexists. split; [exact Hf|]. split; [|reflexivity]. reflexivity.
  - destruct (jwt_sign _ _ _ _ _) as [t|]; subst out; simpl; try discriminate.
    intros _. exists u, t. split; [reflexivity|]. left. exists p. auto.
Qed.

Lemma signin_repairs HS256 sec b w user tok :
  unique_profiles w -> healthy 4 w ->
  fst (signin HS256 sec b w) = {| status := 200; body := SessionBody user tok |} ->
  exists p,
    In p (profiles (snd (signin HS256 sec b w))) /\ p_id p = su_id user /\
    status (fst (me (su_id user) (snd (signin HS256 sec b w)))) = 200.
Proof.
  intros Hu Hh Hok.
  pose proof (healthy_consume _ _ Hh) as Hh2.
  pose proof (healthy_consume _ _ Hh2) as Hh3.
  pose proof (healthy_next _ _ Hh3) as F3.
  pose proof (healthy_consume _ _ Hh3) as Hh4.
  pose proof (healthy_next _ _ Hh4) as F4.
  destruct (signin_outcome HS256 sec b w _ Hu (healthy_weaken _ _ Hh) eq_refl)
    as (u & t & Hfst & Hcase).
  { rewrite Hok. reflexivity. }
  rewrite Hok in Hfst. injection Hfst as -> ->.
  destruct Hcase as [(p & Hf & Hw) | (p & Hf & Hp & Hw)]; rewrite Hw.
  - exists p. assert (Hin : In p (filter (eq_profile_id (u_id u)) (profiles w)))
      by (rewrite Hf; now left).
    apply filter_In in Hin. destruct Hin as [Hin Hid].
    unfold eq_profile_id in Hid. apply N.eqb_eq in Hid.
    split; [exact Hin|]. split; [exact Hid|].
    simpl su_id. erewrite me_with_profile; [reflexivity | exact Hf | exact F3].
  - exists p. split; [simpl; apply in_or_app; right; now left|].
    split; [exact Hp|].
    simpl su_id. erewrite (me_with_profile _ p); [reflexivity | | exact F4].
    simpl. rewrite filter_app, Hf. simpl.
    unfold eq_profile_id. rewrite Hp, N.eqb_refl. reflexivity.
Qed.

(** ** The profile of the current user *)

(** C4 (as amended): GET /auth/me only reads: it never creates a profile.
    When no profile row exists for the identity it answers 404 "User not
    found"; when one exists it answers 200 with it.  The repair is done by
    sign-in: after a successful sign-in on a working store a profile of
    the user exists and the next GET /auth/me answers 200. *)
Theorem profile_repair_at_signin :
  forall HS256 sec w,
    (forall uid,
       users (snd (me uid w)) = users w /\
       profiles (snd (me uid w)) = profiles w /\
       drawings (snd (me uid w)) = drawings w) /\
    (forall uid,
       filter (eq_profile_id uid) (profiles w) = [] -> next_fault w <> Crashes ->
       fst (me uid w) = user_not_found) /\
    (forall uid p,
       filter (eq_profile_id uid) (profiles w) = [p] -> next_fault w = Healthy ->
       fst (me uid w)
       = {| status := 200;
            body := MeBody p (filter (eq_user_id (p_id p)) (drawings w)) |}) /\
    (forall b user tok,
       unique_profiles w -> healthy 4 w ->
       fst (signin HS256 sec b w) = {| status := 200; body := SessionBody user tok |} ->
       exists p,
         In p (profiles (snd (signin HS256 sec b w))) /\ p_id p = su_id user /\
         status (fst (me (su_id user) (snd (signin HS256 sec b w)))) = 200).
Proof.
  intros HS256 sec w. split; [|split; [|split]].
  - intros uid. apply me_reads_only.
  - intros uid. apply me_no_profile.
  - intros uid p. apply me_with_profile.
  - intros b user tok. apply signin_repairs.
Qed.

Lemma profile_repair_at_signin_witness :
  fst (me 1%N profile_insert_fails) = user_not_found.
Proof.
  destruct (profile_repair_at_signin toy_mac (Some secret) profile_insert_fails)
    as (_ & H & _).
  apply H; [reflexivity | discriminate].
Defined.

(** C4 as stated fails: after a sign-up whose profile insert was refused,
    the user holds a valid token, GET /auth/me answers 404 and the profile
    is still missing afterwards. *)
Lemma me_does_not_repair :
  let after_signup :=
    signup no_coercion toy_mac (Some secret) credentials profile_insert_fails in
  status (fst after_signup) = 200 /\
  profiles (snd after_signup) = [] /\
  fst (me 1%N (snd after_signup)) = user_not_found /\
  profiles (snd (me 1%N (snd after_signup))) = [] /\
  exists tok,
    body (fst after_signup) = SessionBody (session_user u1) tok /\
    fst (GET_me toy_mac (Some secret) (with_cookie tok) (snd after_signup))
    = user_not_found.
Proof.
  vm_compute. repeat split. eexists. split; reflexivity.
Qed.

End ServerFacts.

(* ================================================================== *)
(** * Properties of the client *)
(* ================================================================== *)

Module ClientFacts.
Import JS Client ClientSpec ClientScenario.

Lemma tracked_clear c :
  tracked c ->
  match pending (saveTimeoutRef c) with
  | Some h => filter (fun t => negb (handle t =? h)) (timers c) = []
  | None => timers c = []
  end.
Proof.
  intros [_ Ht]. destruct (timers c) as [|t ts] eqn:E.
  - destruct (pending _); reflexivity.
  - destruct (Ht t (or_introl eq_refl)) as [Hr Hn].
    rewrite Hr. unfold pending.
    destruct (Z.eqb_spec (handle t) 0); [contradiction|].
    rewrite <- E. 
    assert (forall x, In x (timers c) -> negb (handle x =? handle t) = false).
    { intros x Hx. rewrite E in Hx. destruct (Ht x Hx) as [Hx' _].
      rewrite Hr in Hx'. injection Hx' as ->. now rewrite Z.eqb_refl. }
    clear E. induction (timers c) as [|a l IH]; simpl; auto.
    rewrite (H a (or_introl eq_refl)). apply IH. intros x Hx. apply H. now right.
Qed.

Lemma mutate_arms i c s :
  mounted i c -> tracked c -> armed i s (sent c) (mutate s c).
Proof.
  intros (Hid & He & Hl) Ht.
  pose proof (tracked_clear c Ht) as Hc. destruct Ht as [Hpos _].
  unfold mutate. destruct (editorRef c) as [e|] eqn:Ee; [|congruence].
  cbn [listening set_editor]. rewrite Hl.
  unfold on_change, armed, setTimeout, clearTimeout. simpl.
  destruct (pending (saveTimeoutRef c)) as [h|]; simpl; rewrite Hc; simpl;
    (repeat split; auto; try lia);
    exists (next_handle c); repeat split; auto; lia.
Qed.

Lemma armed_mounted i s log c : armed i s log c -> mounted i c.
Proof.
  intros (Hid & He & Hl & _). unfold mounted. rewrite He. repeat split; auto.
  discriminate.
Qed.

(** Less than a debounce interval passes: nothing fires. *)
Lemma armed_wait i s log c dt :
  armed i s log c -> 0 <= dt < 3000 ->
  mounted i (advance dt c) /\ tracked (advance dt c) /\
  sent (advance dt c) = log.
Proof.
  intros Ha Hdt. pose proof (armed_mounted _ _ _ _ Ha) as Hm.
  destruct Ha as (Hid & He & Hl & Hpos & (h & Hh & Hr & Ht) & Hs).
  unfold advance. rewrite Ht. unfold is_due. simpl.
  destruct (Z.leb_spec (now c + 3000) (now c + dt)); [lia|]. simpl.
  split; [exact Hm|]. split; [|exact Hs].
  split; simpl; auto.
  intros t [<- | []]. simpl. auto.
Qed.

(** A full interval passes: the timer fires and one request leaves with
    the live snapshot. *)
Lemma armed_fire i s log c d :
  armed i s log c -> 3000 <= d ->
  sent (advance d c)
  = log ++ [ {| request := Z.of_nat (List.length log); canvas_id := i;
                sent_snapshot := s |} ] /\
  in_flight (advance d c)
  = in_flight c ++ [ {| request := Z.of_nat (List.length log); canvas_id := i;
                        sent_snapshot := s |} ] /\
  timers (advance d c) = [] /\ saveStatus (advance d c) = saving.
Proof.
  intros (Hid & He & Hl & Hpos & (h & Hh & Hr & Ht) & Hs) Hd.
  unfold advance. rewrite Ht. unfold is_due. simpl.
  destruct (Z.leb_spec (now c + 3000) (now c + d)); [|lia]. simpl.
  unfold saveCanvas. simpl. rewrite Hid, He. simpl. rewrite Hs. auto.
Qed.

Lemma run_app evs1 evs2 c : run (evs1 ++ evs2) c = run evs2 (run evs1 c).
Proof. unfold run. apply fold_left_app. Qed.

Lemma last_cons {A} (l : list A) x d : last (x :: l) d = last l x.
Proof.
  revert x d. induction l as [|a l IH]; intros x d; [reflexivity|].
  change (last (x :: a :: l) d) with (last (a :: l) d).
  now rewrite (IH a d), (IH a x).
Qed.

Lemma burst_arms i c first rest :
  mounted i c -> tracked c ->
  Forall (fun p => 0 <= fst p < 3000) rest ->
  armed i (last (map snd rest) first) (sent c) (run (burst first rest) c).
Proof.
  intros Hm Ht Hrest. unfold burst. 
  change (run (Change first :: ?l) c) with (run l (mutate first c)).
  pose proof (mutate_arms i c first Hm Ht) as Ha.
  clear Hm Ht. set (c1 := mutate first c) in *. clearbody c1.
  revert c1 first Ha.
  induction Hrest as [|[dt s] rest Hdt _ IH]; intros c1 first Ha.
  - exact Ha.
  - simpl flat_map. 
    change (run (Elapse dt :: Change s :: ?l) c1) with (run l (mutate s (advance dt c1))).
    destruct (armed_wait _ _ _ _ dt Ha Hdt) as (Hm & Ht & Hs).
    pose proof (mutate_arms i _ s Hm Ht) as Ha'. rewrite Hs in Ha'.
    specialize (IH _ s Ha').
    simpl map. rewrite last_cons. exact IH.
Qed.

(** C3: for every N >= 1, a burst of N edits, each less than 3000 ms
    after the one before, sends no request while it lasts, and exactly
    one once 3000 ms have passed after the last edit; that request
    carries the document as it is after the N-th edit. *)
Theorem burst_coalesces :
  forall i c first rest d,
    mounted i c -> tracked c ->
    Forall (fun p => 0 <= fst p < 3000) rest -> 3000 <= d ->
    let w := {| request := Z.of_nat (List.length (sent c)); canvas_id := i;
                sent_snapshot := last (map snd rest) first |} in
    sent (run (burst first rest) c) = sent c /\
    sent (run (burst first rest ++ [Elapse d]) c) = sent c ++ [w] /\
    timers (run (burst first rest ++ [Elapse d]) c) = [].
Proof.
  intros i c first rest d Hm Ht Hrest Hd w.
  pose proof (burst_arms i c first rest Hm Ht Hrest) as Ha.
  split.
  - destruct Ha as (_ & _ & _ & _ & _ & Hs). exact Hs.
  - rewrite run_app. change (run [Elapse d] ?x) with (advance d x).
    destruct (armed_fire _ _ _ _ d Ha Hd) as (H1 & _ & H3 & _). auto.
Qed.

Lemma burst_coalesces_witness :
  sent (run (burst (stroke 1) [(1000, stroke 2); (2999, stroke 3)] ++ [Elapse 3000])
            mounted_canvas)
  = [ {| request := 0; canvas_id := 7%N; sent_snapshot := stroke 3 |} ].
Proof.
  refine (proj1 (proj2 (burst_coalesces 7%N mounted_canvas (stroke 1)
                          [(1000, stroke 2); (2999, stroke 3)] 3000 _ _ _ _))).
  - repeat split. discriminate.
  - split; [reflexivity | intros t []].
  - repeat constructor; simpl; lia.
  - lia.
Defined.

(** ** The timer invariant holds in every reachable state *)

Lemma same_timers_tracked c c' : same_timers c c' -> tracked c -> tracked c'.
Proof. intros (Ht & Hr & Hn) [Hp H]. unfold tracked. rewrite Ht, Hr, Hn. auto. Qed.

Lemma saveCanvas_timers c : same_timers c (saveCanvas c).
Proof.
  unfold saveCanvas, same_timers.
  destruct (id c); [destruct (editorRef c)|]; simpl; auto.
Qed.

Lemma settle_timers r ok c : same_timers c (settle r ok c).
Proof.
  unfold settle, same_timers.
  destruct (existsb _ _); [destruct ok|]; simpl; auto.
Qed.

Lemma tracked_no_timers c :
  0 < next_handle c -> timers c = [] -> tracked c.
Proof. intros Hp Ht. split; auto. rewrite Ht. intros t []. Qed.

Lemma on_change_tracked c : tracked c -> tracked (on_change c).
Proof.
  intros Ht. pose proof (tracked_clear c Ht) as Hc. destruct Ht as [Hpos _].
  unfold on_change, setTimeout, clearTimeout. simpl.
  destruct (pending (saveTimeoutRef c)) as [h|]; simpl; rewrite Hc; simpl;
    (split; simpl; [lia|]); intros t [<- | []]; simpl; split; auto; lia.
Qed.

Lemma handleManualSave_tracked c : tracked c -> tracked (handleManualSave c).
Proof.
  intros Ht. pose proof (tracked_clear c Ht) as Hc. destruct Ht as [Hpos _].
  unfold handleManualSave.
  apply (same_timers_tracked _ _ (saveCanvas_timers _)).
  destruct (pending (saveTimeoutRef c)) as [h|].
  - apply tracked_no_timers; simpl; auto.
  - apply tracked_no_timers; auto.
Qed.

Lemma fold_saveCanvas_timers {A} (l : list A) c :
  same_timers c (fold_left (fun s _ => saveCanvas s) l c).
Proof.
  revert c. induction l as [|a l IH]; intros c; simpl.
  - unfold same_timers. auto.
  - destruct (IH (saveCanvas c)) as (H1 & H2 & H3).
    destruct (saveCanvas_timers c) as (K1 & K2 & K3).
    unfold same_timers. rewrite H1, H2, H3. auto.
Qed.

Lemma advance_tracked dt c : tracked c -> tracked (advance dt c).
Proof.
  intros [Hp Ht]. unfold advance.
  apply (same_timers_tracked _ _ (fold_saveCanvas_timers _ _)).
  split; simpl; auto.
  intros t Hin. apply filter_In in Hin. destruct Hin as [Hin _]. auto.
Qed.

Lemma step_tracked c ev : tracked c -> tracked (step c ev).
Proof.
  intros Ht. destruct ev as [e | s | dt | | | r ok | ]; simpl.
  - exact Ht.
  - unfold mutate. destruct (editorRef c); auto. simpl.
    destruct (listening c); [apply on_change_tracked|]; exact Ht.
  - now apply advance_tracked.
  - destruct (saveStatus c); auto using handleManualSave_tracked.
  - now apply handleManualSave_tracked.
  - exact (same_timers_tracked _ _ (settle_timers r ok c) Ht).
  - pose proof (tracked_clear c Ht) as Hc. destruct Ht as [Hpos Ht].
    unfold unmount. simpl.
    destruct (pending (saveTimeoutRef c)) as [h|].
    + apply tracked_no_timers; simpl; auto.
    + split; simpl; auto.
Qed.

Lemma reachable_tracked i evs : tracked (run evs (init i)).
Proof.
  assert (H0 : tracked (init i)) by (split; simpl; [lia | intros t []]).
  revert H0. generalize (init i) as c. unfold run.
  induction evs as [|ev evs IH]; intros c Hc; simpl; auto.
  apply IH. now apply step_tracked.
Qed.

(** ** Manual save *)

Lemma settle_sent r ok c : sent (settle r ok c) = sent c.
Proof. unfold settle. destruct (existsb _ _); [destruct ok|]; reflexivity. Qed.

Lemma settles_sent outcomes c :
  sent (run (map (fun o => Settled (fst o) (snd o)) outcomes) c) = sent c.
Proof.
  revert c. unfold run. induction outcomes as [|[r ok] l IH]; intros c; simpl; auto.
  rewrite IH. apply settle_sent.
Qed.

(** C2 (as amended): in a session with a canvas and a mounted editor, a
    manual save by keyboard starts exactly one write at once, whatever
    the save status: the writes in flight grow by that one request (they
    are not limited to one), and however the writes in flight then
    settle, no further write follows.  The Save Now button does nothing
    while the status is Saving. *)
Theorem manual_save_writes_at_once :
  forall i e c,
    id c = Some i -> editorRef c = Some e ->
    let w := {| request := Z.of_nat (List.length (sent c)); canvas_id := i;
                sent_snapshot := getSnapshot e |} in
    sent (step c KeySave) = sent c ++ [w] /\
    in_flight (step c KeySave) = in_flight c ++ [w] /\
    saveStatus (step c KeySave) = saving /\
    (forall outcomes,
       sent (run (KeySave :: map (fun o => Settled (fst o) (snd o)) outcomes) c)
       = sent c ++ [w]) /\
    (saveStatus c = saving -> step c ClickSave = c).
Proof.
  intros i e c Hid He w.
  assert (Hk : sent (step c KeySave) = sent c ++ [w] /\
               in_flight (step c KeySave) = in_flight c ++ [w] /\
               saveStatus (step c KeySave) = saving).
  { simpl. unfold handleManualSave, saveCanvas.
    destruct (pending (saveTimeoutRef c)); simpl; rewrite Hid, He; simpl; auto. }
  destruct Hk as (H1 & H2 & H3). repeat split; auto.
  - intros outcomes.
    change (run (KeySave :: ?l) c) with (run l (step c KeySave)).
    now rewrite settles_sent.
  - intros Hs. simpl. now rewrite Hs.
Qed.

Lemma manual_save_writes_at_once_witness :
  List.length (sent (step editing KeySave)) = 2%nat /\
  List.length (in_flight (step editing KeySave)) = 2%nat.
Proof.
  destruct (manual_save_writes_at_once 7%N
              {| document := JObj [(utf16 "shapes", JArr [JNum 1])] |} editing
              eq_refl eq_refl) as (H1 & H2 & _).
  rewrite H1, H2. split; reflexivity.
Defined.

(** C2 as stated fails: with one write in flight (status Saving), a manual
    save by keyboard puts a second write in flight at once, and the
    completion of the first one starts nothing. *)
Lemma second_write_while_saving :
  saveStatus editing = saving /\
  List.length (in_flight editing) = 1%nat /\
  List.length (in_flight (step editing KeySave)) = 2%nat /\
  List.length (sent (step editing KeySave)) = 2%nat /\
  sent (step (step editing KeySave) (Settled 0 true)) = sent (step editing KeySave).
Proof. vm_compute. repeat split. Qed.

End ClientFacts.

(* ================================================================== *)
(** * Further properties of the server *)
(* ================================================================== *)

Module ServerExtras.
Import JS Server Creation ServerSpec ExtraSpec ServerFacts Scenario.

(** ** Creating a canvas *)

(** X1: POST /canvases with a missing, null, empty or otherwise falsy
    [drawing_name], or with a string of white space only, is answered 400
    "Canvas name required" before any backend call. *)
Theorem create_blank_name_rejected :
  forall uid name w,
    truthy name = false \/ (exists s, name = Some (JStr s) /\ trim s = []) ->
    create_canvas uid name w = (name_required, w).
Proof.
  intros uid name w [Hf | (s & -> & Ht)]; unfold create_canvas, try_catch, bind.
  - rewrite Hf. reflexivity.
  - destruct s as [|c s]; [reflexivity|].
    cbn [truthy negb call_trim ret]. rewrite Ht. reflexivity.
Qed.

Lemma create_blank_name_rejected_witness :
  create_canvas alice (Some (JStr (utf16 "   "))) two_tenants = (name_required, two_tenants).
Proof.
  apply create_blank_name_rejected. right. eexists. split; reflexivity.
Defined.

(** X2: POST /canvases with a truthy [drawing_name] that is not a string
    (a number, [true], an array, an object) is answered 500: the call of
    [trim] throws; nothing is written. *)
Theorem create_non_string_name_is_500 :
  forall uid v w,
    truthy (Some v) = true -> not_a_string v ->
    create_canvas uid (Some v) w = (internal_error, w).
Proof.
  intros uid v w Ht Hn. unfold create_canvas, try_catch, bind. rewrite Ht.
  destruct v; simpl in Hn; try contradiction; reflexivity.
Qed.

Lemma create_non_string_name_is_500_witness :
  create_canvas alice (Some (JNum 7)) two_tenants = (internal_error, two_tenants).
Proof.
  apply create_non_string_name_is_500; [reflexivity | exact I].
Defined.

Lemma trim_nil : trim [] = [].
Proof. reflexivity. Qed.

Lemma filter_fresh w uid :
  fresh_id w -> filter (owned (next_id w) uid) (drawings w) = [].
Proof.
  unfold fresh_id. intros Hf. apply filter_none. intros x Hx.
  unfold owned. destruct (eq_id (next_id w) x) eqn:E; auto.
  assert (existsb (eq_id (next_id w)) (drawings w) = true)
    by (apply existsb_exists; eauto).
  congruence.
Qed.

(** X3: on a working store POST /canvases with a name that is not blank
    answers 201 with a canvas owned by the requester, named by the trimmed
    name and with the empty snapshot; the row is appended, and a GET of
    its id by the same identity returns that canvas. *)
Theorem create_then_get :
  forall uid s w,
    trim s <> [] -> next_fault w = Healthy -> fresh_id w ->
    let canvas := new_canvas uid (trim s) w in
    let after := create_canvas uid (Some (JStr s)) w in
    fst after = {| status := 201; body := CanvasBody (Some canvas) |} /\
    drawings (snd after) = drawings w ++ [canvas] /\
    (next_fault (consume w) = Healthy ->
     fst (get_canvas uid (next_id w) (snd after))
     = {| status := 200; body := CanvasBody (Some canvas) |}).
Proof.
  intros uid s w Ht Hh Hf canvas after.
  assert (Hafter : after =
            ({| status := 201; body := CanvasBody (Some canvas) |},
             {| users := users w; profiles := profiles w;
                drawings := drawings w ++ [canvas]; clock := clock w;
                next_id := N.succ (next_id w); faults := tl (faults w) |})).
  { unfold after, create_canvas, try_catch, bind.
    destruct s as [|c s]; [now rewrite trim_nil in Ht|].
    cbn [truthy negb call_trim ret].
    destruct (trim (c :: s)) as [|t ts] eqn:Et; [congruence|].
    unfold await, insert_drawing. rewrite Hh. unfold fresh_id in Hf.
    change (drawings (consume w)) with (drawings w).
    change (next_id (consume w)) with (next_id w).
    rewrite Hf. reflexivity. }
  rewrite Hafter. cbn [fst snd drawings]. split; [reflexivity|]. split; [reflexivity|].
  intros Hc. unfold get_canvas, try_catch, bind, await, select_owned.
  match goal with
  | |- context [next_fault ?x] => change (next_fault x) with (next_fault (consume w))
  end.
  rewrite Hc. cbn -[filter].
  rewrite filter_app, (filter_fresh w uid Hf). cbn.
  unfold owned, eq_id, eq_user_id. cbn. rewrite !N.eqb_refl. reflexivity.
Qed.

Lemma create_then_get_witness :
  fst (get_canvas alice 8%N
         (snd (create_canvas alice (Some (JStr (utf16 "  Trip Plan "))) two_tenants)))
  = {| status := 200;
       body := CanvasBody (Some (new_canvas alice (utf16 "Trip Plan") two_tenants)) |}.
Proof.
  refine (proj2 (proj2 (create_then_get alice (utf16 "  Trip Plan ") two_tenants _ _ _)) _);
    try reflexivity.
  discriminate.
Defined.

(** ** Updating *)

(** What the PATCH handler does for the owner of an existing row, once
    the body has been read. *)
Lemma update_owner_outcome w d b name :
  unique_ids w -> In d (drawings w) -> healthy 2 w ->
  match b_drawing_name b with
  | None => name = None
  | Some (JStr s) => name = Some (trim s)
  | Some _ => False
  end ->
  (b_snapshot b <> None \/ name <> None) ->
  let u := {| set_snapshot := b_snapshot b; set_drawing_name := name |} in
  update_canvas (d_user_id d) (d_id d) b w
  = ({| status := 200; body := CanvasBody (Some (apply_update u d)) |},
     with_drawings
       (map (fun x => if eq_id (d_id d) x then apply_update u x else x) (drawings w))
       (consume (consume w))).
Proof.
  intros Hu Hin Hh Hname Hsome u.
  pose proof (healthy_next _ _ Hh) as H1.
  pose proof (healthy_next _ _ (healthy_consume _ _ Hh)) as H2.
  unfold update_canvas, try_catch, bind, await, select_owned.
  rewrite H1. cbn -[filter]. rewrite (own_filter w d Hu Hin). cbn -[filter].
  assert (Hk : (keys_length u =? 0) = false).
  { unfold keys_length, u. cbn.
    destruct (b_snapshot b); destruct name; try reflexivity.
    destruct Hsome; congruence. }
  destruct (b_drawing_name b) as [[| | |s| | | | ]|]; try contradiction; subst name;
    cbn -[filter trim]; fold u; rewrite Hk; rewrite H2; unfold update_by_id;
    cbn -[filter trim]; rewrite (id_filter w d Hu Hin); reflexivity.
Qed.

(** X4: an owner's PATCH with at least one field writes exactly the
    supplied ones: the snapshot is replaced only when one is given, the
    name only when a string is given (stored trimmed); id and owner stay. *)
Theorem patch_writes_only_supplied_fields :
  forall w d b,
    unique_ids w -> In d (drawings w) -> healthy 2 w ->
    (b_snapshot b <> None \/ b_drawing_name b <> None) ->
    (forall v, b_drawing_name b = Some v -> exists s, v = JStr s) ->
    exists canvas,
      fst (update_canvas (d_user_id d) (d_id d) b w)
      = {| status := 200; body := CanvasBody (Some canvas) |} /\
      In canvas (drawings (snd (update_canvas (d_user_id d) (d_id d) b w))) /\
      d_id canvas = d_id d /\ d_user_id canvas = d_user_id d /\
      snapshot canvas
      = match b_snapshot b with Some blob => blob | None => snapshot d end /\
      drawing_name canvas
      = match b_drawing_name b with
        | Some (JStr s) => trim s
        | _ => drawing_name d
        end.
Proof.
  intros w d b Hu Hin Hh Hsome Hstr.
  set (name := match b_drawing_name b with
               | Some (JStr s) => Some (trim s)
               | _ => None
               end).
  assert (Hname : match b_drawing_name b with
                  | None => name = None
                  | Some (JStr s) => name = Some (trim s)
                  | Some _ => False
                  end).
  { unfold name. destruct (b_drawing_name b) as [v|]; [|reflexivity].
    destruct (Hstr v eq_refl) as [s ->]. reflexivity. }
  assert (Hs : b_snapshot b <> None \/ name <> None).
  { destruct Hsome as [H | H]; [now left|]. right. unfold name.
    destruct (b_drawing_name b) as [v|]; [|congruence].
    destruct (Hstr v eq_refl) as [s ->]. discriminate. }
  rewrite (update_owner_outcome w d b name Hu Hin Hh Hname Hs).
  eexists. split; [reflexivity|]. cbn [fst snd with_drawings drawings].
  split.
  - apply in_map_iff. exists d. split; auto.
    unfold eq_id. now rewrite N.eqb_refl.
  - cbn. repeat split; auto.
    unfold name. destruct (b_drawing_name b) as [[]|]; reflexivity.
Qed.

Lemma patch_writes_only_supplied_fields_witness :
  exists canvas,
    fst (update_canvas alice trip_plan
           {| b_snapshot := None; b_drawing_name := Some (JStr (utf16 " Road trip ")) |}
           two_tenants)
    = {| status := 200; body := CanvasBody (Some canvas) |} /\
    snapshot canvas = JObj [] /\ drawing_name canvas = utf16 "Road trip".
Proof.
  destruct (patch_writes_only_supplied_fields two_tenants
              {| d_id := trip_plan; d_user_id := alice;
                 drawing_name := utf16 "Trip Plan"; snapshot := JObj [] |}
              {| b_snapshot := None; b_drawing_name := Some (JStr (utf16 " Road trip ")) |})
    as (canvas & H1 & _ & _ & _ & H2 & H3).
  - unfold unique_ids. simpl. constructor; [intros [] | constructor].
  - left. reflexivity.
  - constructor.
  - right. discriminate.
  - intros v [= <-]. eexists. reflexivity.
  - exists canvas. split; [exact H1|]. split; [exact H2 | exact H3].
Defined.

(** X5: unlike POST, PATCH does not refuse a blank name: a [drawing_name]
    that is empty or white space only is answered 200 and the canvas is
    renamed to the empty string. *)
Theorem patch_accepts_blank_name :
  forall w d s,
    trim s = [] ->
    unique_ids w -> In d (drawings w) -> healthy 2 w ->
    fst (update_canvas (d_user_id d) (d_id d)
           {| b_snapshot := None; b_drawing_name := Some (JStr s) |} w)
    = {| status := 200;
         body := CanvasBody (Some {| d_id := d_id d; d_user_id := d_user_id d;
                                     drawing_name := []; snapshot := snapshot d |}) |}.
Proof.
  intros w d s Ht Hu Hin Hh.
  rewrite (update_owner_outcome w d _ (Some (trim s)) Hu Hin Hh); cbn.
  - unfold apply_update. cbn. rewrite Ht. reflexivity.
  - reflexivity.
  - right. discriminate.
Qed.

Lemma patch_accepts_blank_name_witness :
  fst (update_canvas alice trip_plan
         {| b_snapshot := None; b_drawing_name := Some (JStr (utf16 "   ")) |} two_tenants)
  = {| status := 200;
       body := CanvasBody (Some {| d_id := trip_plan; d_user_id := alice;
                                   drawing_name := []; snapshot := JObj [] |}) |}.
Proof.
  refine (patch_accepts_blank_name two_tenants
            {| d_id := trip_plan; d_user_id := alice;
               drawing_name := utf16 "Trip Plan"; snapshot := JObj [] |}
            (utf16 "   ") eq_refl _ _ _).
  - unfold unique_ids. simpl. constructor; [intros [] | constructor].
  - left. reflexivity.
  - constructor.
Defined.

(** X6: an owner's PATCH with neither [snapshot] nor [drawing_name] is
    answered 400 "No fields to update"; only the ownership check has
    reached the store. *)
Theorem patch_without_fields_is_400 :
  forall w u c d,
    next_fault w = Healthy -> filter (owned c u) (drawings w) = [d] ->
    update_canvas u c {| b_snapshot := None; b_drawing_name := None |} w
    = (no_fields, consume w).
Proof.
  intros w u c d Hh Hf.
  unfold update_canvas, try_catch, bind, await, select_owned.
  rewrite Hh. cbn -[filter]. rewrite Hf. reflexivity.
Qed.

Lemma patch_without_fields_is_400_witness :
  update_canvas alice trip_plan {| b_snapshot := None; b_drawing_name := None |} two_tenants
  = (no_fields, consume two_tenants).
Proof.
  eapply (patch_without_fields_is_400 two_tenants alice trip_plan); reflexivity.
Defined.

(** X7: an owner's PATCH whose [drawing_name] is any JSON value other than
    a string is answered 500, whatever the snapshot, and nothing is
    written. *)
Theorem patch_non_string_name_is_500 :
  forall w u c d S v,
    next_fault w = Healthy -> filter (owned c u) (drawings w) = [d] ->
    not_a_string v ->
    update_canvas u c {| b_snapshot := S; b_drawing_name := Some v |} w
    = (internal_error, consume w).
Proof.
  intros w u c d S v Hh Hf Hv.
  unfold update_canvas, try_catch, bind, await, select_owned.
  rewrite Hh. cbn -[filter]. rewrite Hf.
  destruct v; simpl in Hv; try contradiction; reflexivity.
Qed.

Lemma patch_non_string_name_is_500_witness :
  update_canvas alice trip_plan
    {| b_snapshot := Some shapes; b_drawing_name := Some (JNum 42) |} two_tenants
  = (internal_error, consume two_tenants).
Proof.
  eapply (patch_non_string_name_is_500 two_tenants alice trip_plan);
    [reflexivity | reflexivity | exact I].
Defined.

(** X8: when the ownership check passes and the store refuses the write,
    PATCH answers 500 "Error updating canvas" and the rows are as before. *)
Theorem patch_store_refusal_is_500 :
  forall w u c d S,
    next_fault w = Healthy -> filter (owned c u) (drawings w) = [d] ->
    next_fault (consume w) = Rejects ->
    update_canvas u c {| b_snapshot := Some S; b_drawing_name := None |} w
    = (update_failed, consume (consume w)).
Proof.
  intros w u c d S Hh Hf Hr.
  unfold update_canvas, try_catch, bind, await, select_owned.
  rewrite Hh. cbn -[filter]. rewrite Hf. cbn. rewrite Hr. reflexivity.
Qed.

Lemma patch_store_refusal_is_500_witness :
  update_canvas alice trip_plan
    {| b_snapshot := Some shapes; b_drawing_name := None |} write_refused
  = (update_failed, consume (consume write_refused)).
Proof.
  eapply (patch_store_refusal_is_500 write_refused alice trip_plan); reflexivity.
Defined.

(** ** What a canvas request can touch *)

(** The rows after a PATCH are the rows before, or the rows before with
    the update applied to those carrying the requested id, which the
    requester owns. *)
Lemma update_canvas_rows u c b w :
  drawings (snd (update_canvas u c b w)) = drawings w \/
  exists upd d,
    filter (owned c u) (drawings w) = [d] /\
    filter (eq_id c) (drawings w) = [d] /\
    drawings (snd (update_canvas u c b w))
    = map (fun x => if eq_id c x then apply_update upd x else x) (drawings w).
Proof.
  unfold update_canvas, try_catch, bind, await, select_owned.
  destruct (next_fault w); [| now left ..].
  cbn -[filter].
  destruct (filter (owned c u) (drawings w)) as [|d [|d' l]] eqn:Hf;
    [now left | | now left].
  cbn -[filter].
  assert (Hd : In d (filter (eq_id c) (drawings w))).
  { assert (Hd : In d (filter (owned c u) (drawings w))) by (rewrite Hf; now left).
    apply filter_In in Hd. destruct Hd as [Hd Ho]. apply filter_In. split; auto.
    unfold owned in Ho. now apply andb_true_iff in Ho. }
  destruct (b_drawing_name b) as [[| | |s| | | | ]|]; try (now left); cbn -[filter];
    (destruct (keys_length _ =? 0); [now left|]);
    (destruct (next_fault (consume w)); [| now left ..]);
    unfold update_by_id; change (drawings (consume (consume w))) with (drawings w);
    (destruct (filter (eq_id c) (drawings w)) as [|e [|e' l']] eqn:He;
     [now left | | now left]);
    destruct Hd as [-> | []]; right; eexists; exists d;
    (split; [reflexivity|]); (split; [reflexivity|]); reflexivity.
Qed.

Lemma update_keeps_columns u c b w :
  map d_id (drawings (snd (update_canvas u c b w))) = map d_id (drawings w) /\
  map d_user_id (drawings (snd (update_canvas u c b w)))
  = map d_user_id (drawings w).
Proof.
  destruct (update_canvas_rows u c b w) as [-> | (upd & d & _ & _ & ->)]; [auto|].
  rewrite !map_map. split; apply map_ext; intros x;
    destruct (eq_id c x); reflexivity.
Qed.

(** X9: no PATCH, whoever sends it and whatever its body and the state of
    the store, changes the id or the owner of any row, or the number or
    order of rows. *)
Theorem update_keeps_identity_and_owner :
  forall u c b w,
    map d_id (drawings (snd (update_canvas u c b w))) = map d_id (drawings w) /\
    map d_user_id (drawings (snd (update_canvas u c b w)))
    = map d_user_id (drawings w).
Proof. intros u c b w. apply update_keeps_columns. Qed.

Lemma filter_map_fixed {A} (p : A -> bool) (f : A -> A) l :
  (forall x, In x l -> p (f x) = p x) ->
  (forall x, In x l -> p x = true -> f x = x) ->
  filter p (map f l) = filter p l.
Proof.
  induction l as [|a l IH]; simpl; intros H1 H2; auto.
  rewrite (H1 a (or_introl eq_refl)).
  destruct (p a) eqn:E.
  - rewrite (H2 a (or_introl eq_refl) E). f_equal. apply IH; auto.
  - apply IH; auto.
Qed.

(** X10: a canvas request made as identity u leaves the rows of every
    other identity as they were: PATCH (ids being a primary key), DELETE
    and POST; GET changes no row at all. *)
Theorem rows_of_others_untouched :
  forall u c w,
    (forall b, unique_ids w ->
       rows_of_others u (snd (update_canvas u c b w)) = rows_of_others u w) /\
    rows_of_others u (snd (delete_canvas u c w)) = rows_of_others u w /\
    drawings (snd (get_canvas u c w)) = drawings w /\
    (forall name,
       rows_of_others u (snd (create_canvas u name w)) = rows_of_others u w).
Proof.
  intros u c w. split; [|split; [|split]].
  - intros b Hu. unfold rows_of_others.
    destruct (update_canvas_rows u c b w) as [-> | (upd & d & Hf & He & ->)]; [auto|].
    assert (Hd : In d (filter (owned c u) (drawings w))) by (rewrite Hf; now left).
    apply filter_In in Hd. destruct Hd as [Hd Ho]. apply owned_true in Ho.
    destruct Ho as [Hid Hown].
    apply filter_map_fixed.
    + intros x _. destruct (eq_id c x); reflexivity.
    + intros x Hx Hp. destruct (eq_id c x) eqn:E; auto.
      assert (x = d).
      { apply (key_injective (drawings w)); auto.
        unfold eq_id in E. apply N.eqb_eq in E. congruence. }
      subst x. unfold eq_user_id in Hp. rewrite Hown, N.eqb_refl in Hp. discriminate.
  - unfold rows_of_others, delete_canvas, try_catch, bind, await, delete_owned.
    destruct (next_fault w); cbn -[filter]; auto.
    induction (drawings w) as [|a l IH]; simpl; auto.
    unfold owned at 1. destruct (eq_user_id u a) eqn:E.
    + rewrite andb_true_r. destruct (eq_id c a); simpl; rewrite ?E; simpl; auto.
    + rewrite andb_false_r. simpl. rewrite E. simpl. now rewrite IH.
  - unfold get_canvas, try_catch, bind, await, select_owned.
    destruct (next_fault w); cbn -[filter]; auto.
    destruct (single _) as [[x|] [m|]]; reflexivity.
  - intros name. unfold rows_of_others, create_canvas, try_catch, bind.
    destruct (truthy name); [|reflexivity]. cbn [negb].
    destruct name as [[| | |s| | | | ]|]; try reflexivity.
    cbn [call_trim ret]. destruct (trim s); [reflexivity|].
    unfold await, insert_drawing.
    destruct (next_fault w); try reflexivity.
    change (drawings (consume w)) with (drawings w).
    destruct (existsb _ _); [reflexivity|]. cbn -[filter].
    rewrite filter_app. cbn. unfold eq_user_id at 2. cbn. rewrite N.eqb_refl. cbn.
    apply app_nil_r.
Qed.

Lemma rows_of_others_untouched_witness :
  rows_of_others bob
    (snd (update_canvas bob trip_plan
            {| b_snapshot := Some shapes; b_drawing_name := None |} two_tenants))
  = drawings two_tenants.
Proof.
  destruct (rows_of_others_untouched bob trip_plan two_tenants) as [H _].
  rewrite H; [reflexivity|].
  unfold unique_ids. simpl. constructor; [intros [] | constructor].
Defined.

(** X11: after a DELETE served by a working store, a GET of the same id by
    the same identity answers 404. *)
Theorem delete_then_get_not_found :
  forall u c w,
    next_fault w = Healthy -> next_fault (consume w) <> Crashes ->
    fst (get_canvas u c (snd (delete_canvas u c w))) = not_found.
Proof.
  intros u c w Hh Hc. rewrite (delete_healthy u c w Hh). cbn [snd].
  rewrite get_no_row; [reflexivity | | exact Hc].
  cbn [with_drawings drawings]. apply filter_after_negb.
Qed.

Lemma delete_then_get_not_found_witness :
  fst (get_canvas alice trip_plan (snd (delete_canvas alice trip_plan two_tenants)))
  = not_found.
Proof.
  apply (delete_then_get_not_found alice trip_plan two_tenants);
    [reflexivity | discriminate].
Defined.

Lemma NoDup_snoc {A} (l : list A) x : NoDup l -> ~ In x l -> NoDup (l ++ [x]).
Proof.
  induction l as [|a l IH]; simpl; intros Hnd Hx.
  - constructor; [intros [] | constructor].
  - inversion Hnd as [|? ? Ha Hl]; subst. constructor.
    + intros Hin. apply in_app_or in Hin. destruct Hin as [Hin | [-> | []]]; auto.
    + apply IH; auto.
Qed.

(** The primary key survives every canvas request. *)
Lemma canvas_requests_keep_ids_unique :
  forall u c w,
    unique_ids w ->
    (forall b, unique_ids (snd (update_canvas u c b w))) /\
    unique_ids (snd (delete_canvas u c w)) /\
    (forall name, unique_ids (snd (create_canvas u name w))).
Proof.
  intros u c w Hu. split; [|split].
  - intros b. unfold unique_ids.
    now rewrite (proj1 (update_keeps_columns u c b w)).
  - unfold unique_ids, delete_canvas, try_catch, bind, await, delete_owned.
    destruct (next_fault w); cbn -[filter]; auto.
    unfold unique_ids in Hu. revert Hu.
    induction (drawings w) as [|a l IH]; simpl; intros Hu; auto.
    inversion Hu as [|? ? Hnotin Hnd]; subst.
    destruct (negb (owned c u a)); simpl; auto.
    constructor; auto. intros Hin. apply Hnotin.
    apply in_map_iff in Hin. destruct Hin as (x & Hx & Hin).
    apply filter_In in Hin. rewrite <- Hx. apply in_map. tauto.
  - intros name. unfold unique_ids, create_canvas, try_catch, bind.
    destruct (truthy name); [|exact Hu]. cbn [negb].
    destruct name as [[| | |s| | | | ]|]; try exact Hu.
    cbn [call_trim ret]. destruct (trim s); [exact Hu|].
    unfold await, insert_drawing.
    destruct (next_fault w); try exact Hu.
    change (drawings (consume w)) with (drawings w).
    change (next_id (consume w)) with (next_id w).
    destruct (existsb _ _) eqn:E; [exact Hu|]. cbn.
    rewrite map_app. cbn. apply NoDup_snoc; auto.
    intros Hin. apply in_map_iff in Hin. destruct Hin as (x & Hx & Hin).
    assert (existsb (eq_id (next_id w)) (drawings w) = true).
    { apply existsb_exists. exists x. split; auto. unfold eq_id.
      now apply N.eqb_eq. }
    congruence.
Qed.

(** ** The list of /auth/me and the single reads agree *)

(** X13: the drawings listed by GET /auth/me are exactly the rows owned by
    the requester, and each of them is returned by GET /canvases/:id to
    that requester. *)
Theorem me_lists_what_get_returns :
  forall w uid p,
    unique_ids w -> next_fault w = Healthy ->
    filter (eq_profile_id uid) (profiles w) = [p] ->
    exists ds,
      fst (me uid w) = {| status := 200; body := MeBody p ds |} /\
      (forall d, In d ds <-> In d (drawings w) /\ d_user_id d = uid) /\
      (forall d, In d ds ->
         fst (get_canvas uid (d_id d) w)
         = {| status := 200; body := CanvasBody (Some d) |}).
Proof.
  intros w uid p Hu Hh Hp.
  assert (Hid : p_id p = uid).
  { assert (Hin : In p (filter (eq_profile_id uid) (profiles w))) by (rewrite Hp; now left).
    apply filter_In in Hin. destruct Hin as [_ Hin].
    unfold eq_profile_id in Hin. now apply N.eqb_eq in Hin. }
  exists (filter (eq_user_id uid) (drawings w)).
  split; [|split].
  - rewrite (me_with_profile uid p w Hp Hh). now rewrite Hid.
  - intros d. rewrite filter_In. unfold eq_user_id. rewrite N.eqb_eq. tauto.
  - intros d Hd. apply filter_In in Hd. destruct Hd as [Hin Hown].
    unfold eq_user_id in Hown. apply N.eqb_eq in Hown.
    unfold get_canvas, try_catch, bind, await, select_owned. rewrite Hh.
    cbn -[filter]. rewrite <- Hown. rewrite (own_filter w d Hu Hin). reflexivity.
Qed.

Lemma me_lists_what_get_returns_witness :
  exists p ds,
    fst (me alice alice_home) = {| status := 200; body := MeBody p ds |} /\
    List.length ds = 1%nat.
Proof.
  destruct (me_lists_what_get_returns alice_home alice
              {| p_id := alice; p_email := utf16 "alice@example.org";
                 full_name := JNull; avatar_url := JNull;
                 p_created_at := 900; p_updated_at := 900 |})
    as (ds & H & _).
  - unfold unique_ids. simpl.
    repeat (constructor; [simpl; intuition discriminate|]). constructor.
  - reflexivity.
  - reflexivity.
  - eexists. exists ds. split; [exact H|].
    rewrite (me_with_profile alice _ alice_home eq_refl eq_refl) in H.
    injection H as <-. reflexivity.
Defined.

(** ** The guard *)

(** X14: a guarded route called with no usable token (no or empty cookie,
    and no header, a header of one word, or an empty second word) answers
    401 "No token provided"; the handler does not run and the store is
    untouched. *)
Theorem missing_token_is_401 :
  forall HS256 sec req h w,
    token_truthy (cookies_token req) = false ->
    match authorization req with
    | None => True
    | Some parts => token_truthy (nth_error parts 1) = false
    end ->
    guarded HS256 sec req h w = (no_token, w).
Proof.
  intros HS256 sec req h w Hc Hh. unfold guarded, verifyToken. rewrite Hc.
  destruct (authorization req) as [parts|].
  - rewrite Hh. reflexivity.
  - reflexivity.
Qed.

Lemma missing_token_is_401_witness :
  DELETE_canvas toy_mac (Some secret)
    {| cookies_token := Some (Opaque []);
       authorization := Some [Opaque (utf16 "Bearer")] |} trip_plan two_tenants
  = (no_token, two_tenants).
Proof.
  apply (missing_token_is_401 toy_mac (Some secret)); reflexivity.
Defined.

(** X15: when the cookie holds a non-empty token the Authorization header
    is never consulted: the outcome is that of verifying the cookie alone,
    so a stale cookie beside a valid bearer token is answered 401. *)
Theorem cookie_shadows_header :
  forall HS256 sec t hdr w,
    token_truthy (Some t) = true ->
    verifyToken HS256 sec {| cookies_token := Some t; authorization := hdr |} w
    = match jwt_verify HS256 t sec (clock w) with
      | Some decoded => inr decoded
      | None => inl invalid_token
      end.
Proof.
  intros HS256 sec t hdr w Ht. unfold verifyToken.
  cbn [cookies_token authorization]. rewrite Ht. cbv zeta. rewrite Ht. reflexivity.
Qed.

Lemma cookie_shadows_header_witness :
  verifyToken toy_mac (Some secret)
    {| cookies_token := Some (Opaque (utf16 "stale"));
       authorization := Some [Opaque (utf16 "Bearer");
                              token_for toy_mac secret u1 1000] |} empty_store
  = inl invalid_token.
Proof.
  rewrite (cookie_shadows_header toy_mac (Some secret)); reflexivity.
Defined.

Lemma verify_issued HS256 (k : jstring) u t0 req w :
  k <> [] ->
  req = with_cookie (token_for HS256 k u t0) \/
  req = with_bearer (token_for HS256 k u t0) ->
  verifyToken HS256 (Some k) req w
  = if t0 + 604800 <=? clock w then inl invalid_token else inr (claims_of u t0).
Proof.
  intros Hk [-> | ->]; unfold verifyToken, jwt_verify, token_for;
    (destruct k as [|k0 k']; [congruence|]); simpl;
    rewrite N.eqb_refl; simpl;
    destruct (t0 + 604800 <=? clock w); reflexivity.
Qed.

Lemma issued_token HS256 k u w0 tok :
  generateToken HS256 k u w0 = Done tok w0 ->
  exists key, k = Some key /\ key <> [] /\ tok = token_for HS256 key u (clock w0).
Proof.
  unfold generateToken, jwt_sign.
  destruct k as [[|k0 key]|]; try discriminate.
  intros [= <-]. eexists. split; [reflexivity|]. split; [discriminate | reflexivity].
Qed.

(** X16: with a token issued by [generateToken] for a user and not yet
    expired, sent as cookie or bearer header, every guarded route behaves
    as its handler run for that user's id. *)
Theorem valid_token_acts_as_its_user :
  forall HS256 k u w0 tok req w,
    generateToken HS256 k u w0 = Done tok w0 ->
    req = with_cookie tok \/ req = with_bearer tok ->
    clock w < clock w0 + 7 * 24 * 60 * 60 ->
    GET_me HS256 k req w = me (u_id u) w /\
    (forall c, GET_canvas HS256 k req c w = get_canvas (u_id u) c w) /\
    (forall name, POST_canvas HS256 k req name w = create_canvas (u_id u) name w) /\
    (forall c b, PATCH_canvas HS256 k req c b w = update_canvas (u_id u) c b w) /\
    (forall c, DELETE_canvas HS256 k req c w = delete_canvas (u_id u) c w).
Proof.
  intros HS256 k u w0 tok req w Hgen Hreq Ht.
  destruct (issued_token _ _ _ _ _ Hgen) as (key & -> & Hk & ->).
  pose proof (verify_issued HS256 key u (clock w0) req w Hk Hreq) as Hv.
  change (7 * 24 * 60 * 60) with 604800 in Ht.
  destruct (Z.leb_spec (clock w0 + 604800) (clock w)); [lia|].
  unfold GET_me, GET_canvas, POST_canvas, PATCH_canvas, DELETE_canvas, guarded.
  rewrite Hv. repeat split.
Qed.

Lemma valid_token_acts_as_its_user_witness :
  GET_me toy_mac (Some secret) (with_bearer (token_for toy_mac secret u1 1000)) two_tenants
  = me 1%N two_tenants.
Proof.
  apply (valid_token_acts_as_its_user toy_mac (Some secret) u1 empty_store
           (token_for toy_mac secret u1 1000) _ two_tenants).
  - reflexivity.
  - right. reflexivity.
  - simpl. lia.
Defined.

(** X17: from the expiry instant on, every guarded route called with the
    token answers 401 "Invalid token" and leaves the store untouched. *)
Theorem expired_token_changes_nothing :
  forall HS256 k u w0 tok req w,
    generateToken HS256 k u w0 = Done tok w0 ->
    req = with_cookie tok \/ req = with_bearer tok ->
    clock w0 + 7 * 24 * 60 * 60 <= clock w ->
    GET_me HS256 k req w = (invalid_token, w) /\
    (forall c, GET_canvas HS256 k req c w = (invalid_token, w)) /\
    (forall name, POST_canvas HS256 k req name w = (invalid_token, w)) /\
    (forall c b, PATCH_canvas HS256 k req c b w = (invalid_token, w)) /\
    (forall c, DELETE_canvas HS256 k req c w = (invalid_token, w)).
Proof.
  intros HS256 k u w0 tok req w Hgen Hreq Ht.
  destruct (issued_token _ _ _ _ _ Hgen) as (key & -> & Hk & ->).
  pose proof (verify_issued HS256 key u (clock w0) req w Hk Hreq) as Hv.
  change (7 * 24 * 60 * 60) with 604800 in Ht.
  destruct (Z.leb_spec (clock w0 + 604800) (clock w)); [|lia].
  unfold GET_me, GET_canvas, POST_canvas, PATCH_canvas, DELETE_canvas, guarded.
  rewrite Hv. repeat split.
Qed.

Lemma expired_token_changes_nothing_witness :
  DELETE_canvas toy_mac (Some secret) (with_cookie (token_for toy_mac secret u1 1000))
    trip_plan next_week
  = (invalid_token, next_week).
Proof.
  apply (expired_token_changes_nothing toy_mac (Some secret) u1 empty_store
           (token_for toy_mac secret u1 1000) _ next_week).
  - reflexivity.
  - left. reflexivity.
  - simpl. lia.
Defined.

(** ** Sign-in *)

Lemma signIn_reads_only e p w : snd (signInWithPassword e p w) = w.
Proof.
  unfold signInWithPassword. destruct e as [[]|]; auto.
  destruct p as [[]|]; auto. destruct (filter _ _); auto.
Qed.

(** X18: POST /auth/signin with a falsy email or password answers 400
    without a backend call; when the identity store refuses the
    credentials it answers 401 with the store's message after that single
    call, and no profile is looked up or created. *)
Theorem signin_refused_is_401 :
  forall HS256 sec b w,
    (truthy (b_email b) = false \/ truthy (b_password b) = false ->
     signin HS256 sec b w = (credentials_required, w)) /\
    (forall msg,
       truthy (b_email b) = true -> truthy (b_password b) = true ->
       next_fault w = Healthy ->
       error (fst (signInWithPassword (b_email b) (b_password b) (consume w))) = Some msg ->
       signin HS256 sec b w = ({| status := 401; body := Error msg |}, consume w)).
Proof.
  intros HS256 sec b w. split.
  - intros H. unfold signin, try_catch.
    destruct H as [-> | ->]; rewrite ?orb_true_r; reflexivity.
  - intros msg He Hp Hh Herr. unfold signin, try_catch, bind, await.
    rewrite He, Hp. cbn [negb orb]. cbv beta. rewrite Hh.
    pose proof (signIn_reads_only (b_email b) (b_password b) (consume w)) as Hw.
    destruct (signInWithPassword _ _ _) as [r w1]. cbn [fst snd] in *. subst w1.
    rewrite Herr. reflexivity.
Qed.

Lemma signin_refused_is_401_witness :
  signin toy_mac (Some secret) credentials empty_store
  = (invalid_credentials, consume empty_store).
Proof.
  apply (proj2 (signin_refused_is_401 toy_mac (Some secret) credentials empty_store));
    reflexivity.
Defined.

(** The token of a successful sign-in is the one signed for the user in
    the body, at the time of the request. *)
Lemma signin_token HS256 sec b w user tok :
  fst (signin HS256 sec b w) = {| status := 200; body := SessionBody user tok |} ->
  exists u,
    user = session_user u /\
    jwt_sign HS256 (u_id u) (u_email u) sec (clock w) = Some tok /\
    clock (snd (signin HS256 sec b w)) = clock w.
Proof.
  remember (signin HS256 sec b w) as out eqn:Hout.
  unfold signin, try_catch, bind, await in Hout.
  destruct (negb (truthy (b_email b)) || negb (truthy (b_password b)));
    [subst out; discriminate|].
  destruct (next_fault w); [| subst out; discriminate ..].
  pose proof (signIn_reads_only (b_email b) (b_password b) (consume w)) as Hw.
  destruct (signInWithPassword _ _ _) as [[[u|] [msg|]] w1]; cbn [snd] in Hw; subst w1;
    cbn [error data] in Hout; try (subst out; discriminate).
  unfold select_profile, generateToken in Hout.
  destruct (next_fault (consume w)); cbn [data failed] in Hout;
    [destruct (data (single _)) | | subst out; discriminate].
  - cbn [ret] in Hout.
    change (clock (consume (consume w))) with (clock w) in Hout.
    destruct (jwt_sign _ _ _ _ _) as [t|] eqn:Hs; subst out; [|discriminate].
    intros [= <- <-]. exists u. auto.
  - unfold insert_profile in Hout.
    destruct (next_fault (consume (consume w))); [| | subst out; discriminate].
    + destruct (existsb _ _); cbn [with_profiles clock consume] in Hout;
        (destruct (jwt_sign _ _ _ _ _) as [t|] eqn:Hs; subst out; [|discriminate]);
        intros [= <- <-]; exists u; auto.
    + cbn [clock consume] in Hout.
      destruct (jwt_sign _ _ _ _ _) as [t|] eqn:Hs; subst out; [|discriminate].
      intros [= <- <-]. exists u. auto.
  - unfold insert_profile in Hout.
    destruct (next_fault (consume (consume w))); [| | subst out; discriminate].
    + destruct (existsb _ _); cbn [with_profiles clock consume] in Hout;
        (destruct (jwt_sign _ _ _ _ _) as [t|] eqn:Hs; subst out; [|discriminate]);
        intros [= <- <-]; exists u; auto.
    + cbn [clock consume] in Hout.
      destruct (jwt_sign _ _ _ _ _) as [t|] eqn:Hs; subst out; [|discriminate].
      intros [= <- <-]. exists u. auto.
Qed.

(** X19: the token returned by a successful sign-in, presented at once as
    cookie or bearer header, passes the guard with the id and email of the
    user in the response. *)
Theorem signin_token_authenticates :
  forall HS256 sec b w user tok req,
    fst (signin HS256 sec b w) = {| status := 200; body := SessionBody user tok |} ->
    req = with_cookie tok \/ req = with_bearer tok ->
    exists decoded,
      verifyToken HS256 sec req (snd (signin HS256 sec b w)) = inr decoded /\
      userId decoded = su_id user /\ email decoded = su_email user.
Proof.
  intros HS256 sec b w user tok req Hok Hreq.
  destruct (signin_token HS256 sec b w user tok Hok) as (u & -> & Hs & Hc).
  assert (Hgen : generateToken HS256 sec u w = Done tok w)
    by (unfold generateToken; now rewrite Hs).
  destruct (issued_token _ _ _ _ _ Hgen) as (key & -> & Hk & ->).
  rewrite (verify_issued HS256 key u (clock w) req _ Hk Hreq). rewrite Hc.
  destruct (Z.leb_spec (clock w + 604800) (clock w)); [lia|].
  eexists. split; [reflexivity|]. split; reflexivity.
Qed.

Lemma signin_token_authenticates_witness :
  exists decoded,
    verifyToken toy_mac (Some secret) (with_cookie (token_for toy_mac secret u1 2000))
      (snd (signin toy_mac (Some secret) credentials registered_store))
    = inr decoded /\ userId decoded = 1%N.
Proof.
  destruct (signin_token_authenticates toy_mac (Some secret) credentials registered_store
              (session_user u1) (token_for toy_mac secret u1 2000) _ eq_refl
              (or_introl eq_refl)) as (decoded & H1 & H2 & _).
  exists decoded. split; [exact H1 | exact H2].
Defined.

(** ** Sign-up *)

(** What a sign-up does once the identity store has registered the
    user. *)
Lemma signup_accepted ToNumber HS256 sec b e p w :
  acceptable b e p w ->
  let u := registered e p w in
  let w1 := with_user u w in
  signup ToNumber HS256 sec b w
  = match next_fault w1 with
    | Crashes => (internal_error, consume w1)
    | f =>
        let w2 := match f with
                  | Healthy => snd (insert_profile (u_id u) e (consume w1))
                  | _ => consume w1
                  end in
        match jwt_sign HS256 (u_id u) e sec (clock w) with
        | Some tok => ({| status := 200; body := SessionBody (session_user u) tok |}, w2)
        | None => (internal_error, w2)
        end
    end.
Proof.
  intros (Hem & Hp & Hne & Hlen & Hex & Hh) u w1.
  assert (He : truthy (b_email b) = true)
    by (rewrite Hem; destruct e; [congruence | reflexivity]).
  past_validation He Hp Hlen.
  rewrite Hh, Hem. unfold createUser.
  change (users (consume w)) with (users w). rewrite Hex.
  cbn [error data ok]. unfold generateToken.
  change (next_fault _) with (next_fault w1) at 1.
  destruct (next_fault w1); [| | reflexivity].
  - match goal with
    | |- context [insert_profile ?a ?x ?y] =>
        change (insert_profile a x y) with (insert_profile (u_id u) e (consume w1))
    end.
    pose proof (insert_profile_frame (u_id u) e (consume w1)) as (_ & Hc & _).
    destruct (insert_profile _ _ _) as [r w2]. cbn [snd] in *. rewrite Hc.
    change (clock (consume w1)) with (clock w).
    cbn [u_id u_email].
    change (next_id (consume w)) with (u_id u).
    destruct (jwt_sign _ _ _ _ _); reflexivity.
  - cbn [u_id u_email]. change (clock (consume _)) with (clock w).
    change (next_id (consume w)) with (u_id u).
    destruct (jwt_sign _ _ _ _ _); reflexivity.
Qed.

Lemma sign_for HS256 (k : jstring) u t :
  k <> [] ->
  jwt_sign HS256 (u_id u) (u_email u) (Some k) t = Some (token_for HS256 k u t).
Proof. intros Hk. unfold jwt_sign. destruct k; [congruence | reflexivity]. Qed.

(** X20: when the identity store registers the user and the profile insert
    is refused, sign-up still answers 200 with the user and a token; the
    user is registered and no profile has been created. *)
Theorem signup_survives_profile_refusal :
  forall ToNumber HS256 (k : jstring) b e p w,
    acceptable b e p w -> k <> [] ->
    next_fault (consume w) = Rejects ->
    let u := registered e p w in
    let after := signup ToNumber HS256 (Some k) b w in
    fst after
    = {| status := 200;
         body := SessionBody (session_user u) (token_for HS256 k u (clock w)) |} /\
    users (snd after) = u :: users w /\
    profiles (snd after) = profiles w.
Proof.
  intros ToNumber HS256 k b e p w Hacc Hk Hr u after.
  unfold after. rewrite (signup_accepted ToNumber HS256 (Some k) b e p w Hacc).
  change (next_fault (with_user (registered e p w) w)) with (next_fault (consume w)).
  rewrite Hr. cbv zeta.
  assert (Hs : jwt_sign HS256 (u_id (registered e p w)) e (Some k) (clock w)
               = Some (token_for HS256 k u (clock w)))
    by exact (sign_for HS256 k u (clock w) Hk).
  rewrite Hs. repeat split.
Qed.

Lemma signup_survives_profile_refusal_witness :
  status (fst (signup no_coercion toy_mac (Some secret) credentials profile_insert_fails))
  = 200 /\
  profiles (snd (signup no_coercion toy_mac (Some secret) credentials profile_insert_fails))
  = [].
Proof.
  destruct (signup_survives_profile_refusal no_coercion toy_mac secret credentials
              (utf16 "u1@example.org") (utf16 "hunter22") profile_insert_fails)
    as (H1 & _ & H3).
  - repeat split; try reflexivity; try discriminate. simpl. lia.
  - discriminate.
  - reflexivity.
  - rewrite H1, H3. split; reflexivity.
Defined.

Lemma jstring_eqb_refl s : jstring_eqb s s = true.
Proof. induction s as [|c s IH]; simpl; auto. now rewrite N.eqb_refl. Qed.

Lemma signup_conflict ToNumber HS256 sec b e p w :
  b_email b = Some (JStr e) -> b_password b = Some (JStr p) ->
  e <> [] -> (6 <= List.length p)%nat -> next_fault w = Healthy ->
  existsb (has_email e) (users w) = true ->
  signup ToNumber HS256 sec b w = (already_registered, consume w).
Proof.
  intros Hem Hp Hne Hlen Hh Hex.
  assert (He : truthy (b_email b) = true)
    by (rewrite Hem; destruct e; [congruence | reflexivity]).
  past_validation He Hp Hlen.
  rewrite Hh, Hem. unfold createUser.
  change (users (consume w)) with (users w). rewrite Hex. reflexivity.
Qed.

(** X21: when the profile insert throws, or no signing secret is
    configured, sign-up answers 500 although the user has been
    registered; repeating the request then answers 400, the address being
    taken. *)
Theorem signup_can_fail_after_registering :
  forall ToNumber HS256 sec b e p w,
    acceptable b e p w ->
    next_fault (consume w) = Crashes \/ sec = None \/ sec = Some [] ->
    let u := registered e p w in
    let after := signup ToNumber HS256 sec b w in
    fst after = internal_error /\
    users (snd after) = u :: users w /\
    (next_fault (snd after) = Healthy ->
     fst (signup ToNumber HS256 sec b (snd after)) = already_registered).
Proof.
  intros ToNumber HS256 sec b e p w Hacc Hfail u after.
  assert (Hafter : fst after = internal_error /\ users (snd after) = u :: users w).
  { unfold after. rewrite (signup_accepted ToNumber HS256 sec b e p w Hacc).
    change (next_fault (with_user (registered e p w) w)) with (next_fault (consume w)).
    pose proof (insert_profile_frame (u_id u) e (consume (with_user u w))) as (Hu & _).
    fold u.
    destruct Hfail as [Hc | Hs].
    - rewrite Hc. split; reflexivity.
    - assert (Hj : jwt_sign HS256 (u_id u) e sec (clock w) = None)
        by (destruct Hs as [-> | ->]; reflexivity).
      destruct (next_fault (consume w)); cbv zeta; rewrite ?Hj; cbn [fst snd];
        rewrite ?Hu; split; reflexivity. }
  destruct Hafter as [H1 H2]. split; [exact H1|]. split; [exact H2|].
  intros Hh. destruct Hacc as (Hem & Hp & Hne & Hlen & _ & _).
  rewrite (signup_conflict ToNumber HS256 sec b e p _ Hem Hp Hne Hlen Hh); [reflexivity|].
  rewrite H2. cbn [existsb]. unfold has_email at 1. cbn [u u_email registered].
  now rewrite jstring_eqb_refl.
Qed.

Lemma signup_can_fail_after_registering_witness :
  fst (signup no_coercion toy_mac None credentials empty_store) = internal_error /\
  fst (signup no_coercion toy_mac None credentials
         (snd (signup no_coercion toy_mac None credentials empty_store)))
  = already_registered.
Proof.
  destruct (signup_can_fail_after_registering no_coercion toy_mac None credentials
              (utf16 "u1@example.org") (utf16 "hunter22") empty_store)
    as (H1 & _ & H3).
  - repeat split; try reflexivity; try discriminate. simpl. lia.
  - right. left. reflexivity.
  - split; [exact H1 | apply H3; reflexivity].
Defined.

(** X22: a truthy password that has no [length] (a non-zero number,
    [true], an object without that key) is not stopped by the length
    check: the identity store is called. *)
Theorem password_without_length_skips_the_check :
  forall ToNumber HS256 sec b w v,
    truthy (b_email b) = true -> b_password b = Some v ->
    truthy (Some v) = true -> length_of v = None ->
    snd (signup ToNumber HS256 sec b w) = consume w /\
    fst (signup ToNumber HS256 sec b w) <> password_too_short /\
    fst (signup ToNumber HS256 sec b w) <> credentials_required.
Proof.
  intros ToNumber HS256 sec b w v He Hp Hv Hl.
  unfold signup, try_catch, bind. rewrite He, Hp, Hv.
  rewrite (get_length_truthy v Hv). cbn [negb orb ret]. rewrite Hl.
  cbn [less_than]. unfold await.
  assert (Hc : forall w', createUser (b_email b) (Some v) w'
                          = (failed "Invalid credentials format", w')).
  { intros w'. unfold createUser. destruct (b_email b) as [[]|]; try reflexivity.
    destruct v; try reflexivity. discriminate Hl. }
  rewrite Hc. destruct (next_fault w); cbn; repeat split; discriminate.
Qed.

Lemma password_without_length_skips_the_check_witness :
  fst (signup no_coercion toy_mac (Some secret)
         {| b_email := Some (JStr (utf16 "u1@example.org"));
            b_password := Some (JNum 12345) |} empty_store)
  <> password_too_short.
Proof.
  apply (password_without_length_skips_the_check no_coercion toy_mac (Some secret)
           {| b_email := Some (JStr (utf16 "u1@example.org"));
              b_password := Some (JNum 12345) |} empty_store (JNum 12345));
    reflexivity.
Defined.

Lemma filter_of_existsb_false {A} (p : A -> bool) l :
  existsb p l = false -> filter p l = [].
Proof.
  induction l as [|a l IH]; simpl; auto.
  destruct (p a); [discriminate | auto].
Qed.

(** X23: after a sign-up on a working store with a configured secret,
    GET /auth/me for the new user answers 200 with the profile the sign-up
    inserted and the drawings of that id. *)
Theorem signup_then_me :
  forall ToNumber HS256 (k : jstring) b e p w,
    acceptable b e p w -> k <> [] -> healthy 3 w ->
    existsb (eq_profile_id (next_id w)) (profiles w) = false ->
    let u := registered e p w in
    let after := signup ToNumber HS256 (Some k) b w in
    status (fst after) = 200 /\
    fst (me (u_id u) (snd after))
    = {| status := 200;
         body := MeBody (profile_of u (clock w))
                        (filter (eq_user_id (u_id u)) (drawings w)) |}.
Proof.
  intros ToNumber HS256 k b e p w Hacc Hk Hh Hfresh u after.
  pose proof (healthy_consume _ _ Hh) as Hh2.
  pose proof (healthy_next _ _ Hh2) as F2.
  pose proof (healthy_next _ _ (healthy_consume _ _ Hh2)) as F3.
  assert (Hafter : after =
            ({| status := 200;
                body := SessionBody (session_user u) (token_for HS256 k u (clock w)) |},
             with_profiles (profiles w ++ [profile_of u (clock w)])
               (consume (with_user u w)))).
  { unfold after. rewrite (signup_accepted ToNumber HS256 (Some k) b e p w Hacc).
    change (next_fault (with_user (registered e p w) w)) with (next_fault (consume w)).
    rewrite F2. cbv zeta.
    assert (Hs : jwt_sign HS256 (u_id (registered e p w)) e (Some k) (clock w)
                 = Some (token_for HS256 k u (clock w)))
      by exact (sign_for HS256 k u (clock w) Hk).
    rewrite Hs. unfold insert_profile.
    change (profiles (consume (with_user (registered e p w) w))) with (profiles w).
    change (u_id (registered e p w)) with (next_id w).
    rewrite Hfresh. reflexivity. }
  rewrite Hafter. cbn [fst snd status]. split; [reflexivity|].
  rewrite (me_with_profile (u_id u) (profile_of u (clock w)));
    [reflexivity | | exact F3].
  cbn [with_profiles profiles]. rewrite filter_app.
  change (u_id u) with (next_id w).
  rewrite (filter_of_existsb_false _ _ Hfresh). cbn.
  unfold eq_profile_id. cbn. rewrite N.eqb_refl. reflexivity.
Qed.

Lemma signup_then_me_witness :
  status (fst (me 1%N (snd (signup no_coercion toy_mac (Some secret) credentials
                              empty_store)))) = 200.
Proof.
  destruct (signup_then_me no_coercion toy_mac secret credentials
              (utf16 "u1@example.org") (utf16 "hunter22") empty_store) as [_ H].
  - repeat split; try reflexivity; try discriminate. simpl. lia.
  - discriminate.
  - constructor.
  - reflexivity.
  - exact (f_equal status H).
Defined.
End ServerExtras.

(* ================================================================== *)
(** * Further properties of the client *)
(* ================================================================== *)

Module ClientExtras.
Import JS Client ClientSpec ClientExtraSpec ClientScenario ClientFacts.

(** ** Timers *)

Lemma step_one_timer c ev :
  tracked c -> (List.length (timers c) <= 1)%nat ->
  (List.length (timers (step c ev)) <= 1)%nat.
Proof.
  intros Ht Hl. pose proof (tracked_clear c Ht) as Hc.
  assert (Hsave : forall x, timers (saveCanvas x) = timers x)
    by (intros x; apply saveCanvas_timers).
  destruct ev as [e | s | dt | | | r ok | ]; simpl.
  - exact Hl.
  - unfold mutate. destruct (editorRef c); auto. simpl.
    destruct (listening c); [|exact Hl].
    unfold on_change, setTimeout, clearTimeout. simpl.
    destruct (pending (saveTimeoutRef c)); simpl; rewrite Hc; simpl; lia.
  - unfold advance. rewrite (proj1 (fold_saveCanvas_timers _ _)). simpl.
    etransitivity; [apply filter_length_le | exact Hl].
  - destruct (saveStatus c); auto; unfold handleManualSave; rewrite Hsave;
      destruct (pending (saveTimeoutRef c)); simpl; rewrite ?Hc; simpl; lia.
  - unfold handleManualSave. rewrite Hsave.
    destruct (pending (saveTimeoutRef c)); simpl; rewrite ?Hc; simpl; lia.
  - rewrite (proj1 (settle_timers r ok c)). exact Hl.
  - unfold unmount. simpl.
    destruct (pending (saveTimeoutRef c)); simpl; rewrite ?Hc; simpl; lia.
Qed.

(** X24: in every state the canvas page can reach, at most one auto-save
    timer is pending. *)
Theorem at_most_one_timer :
  forall i evs, (List.length (timers (run evs (init i))) <= 1)%nat.
Proof.
  intros i evs.
  assert (H : forall c, tracked c -> (List.length (timers c) <= 1)%nat ->
                        (List.length (timers (run evs c)) <= 1)%nat).
  { unfold run. induction evs as [|ev evs IH]; intros c Ht Hl; simpl; auto.
    apply IH; [now apply step_tracked | now apply step_one_timer]. }
  apply H.
  - apply (reachable_tracked i []).
  - simpl. lia.
Qed.

(** ** Manual save and the pending timer *)

(** X25: a manual save cancels the pending auto-save: it sends one request
    with the live snapshot, leaves no timer, and no second request follows
    however long one waits. *)
Theorem manual_save_cancels_debounce :
  forall i e c d,
    id c = Some i -> editorRef c = Some e -> tracked c ->
    timers (step c KeySave) = [] /\
    sent (run [KeySave; Elapse d] c) = sent c ++ [next_write i e c].
Proof.
  intros i e c d Hid He Ht. pose proof (tracked_clear c Ht) as Hc.
  assert (H1 : timers (step c KeySave) = []).
  { simpl. unfold handleManualSave. rewrite (proj1 (saveCanvas_timers _)).
    destruct (pending (saveTimeoutRef c)); simpl; auto. }
  assert (H2 : sent (step c KeySave) = sent c ++ [next_write i e c]).
  { simpl. unfold handleManualSave, saveCanvas.
    destruct (pending (saveTimeoutRef c)); simpl; rewrite Hid, He; reflexivity. }
  split; [exact H1|].
  change (run [KeySave; Elapse d] c) with (advance d (step c KeySave)).
  unfold advance. rewrite H1. simpl. exact H2.
Qed.

Lemma manual_save_cancels_debounce_witness :
  List.length (timers edited_canvas) = 1%nat /\
  sent (run [KeySave; Elapse 3000] edited_canvas)
  = [ {| request := 0; canvas_id := 7%N; sent_snapshot := stroke 1 |} ].
Proof.
  split; [reflexivity|].
  refine (proj2 (manual_save_cancels_debounce 7%N {| document := stroke 1 |}
                   edited_canvas 3000 eq_refl eq_refl _)).
  apply (reachable_tracked (Some 7%N) [Mount _; Change _]).
Defined.

(** ** Teardown *)

Lemma quiet_step c ev :
  after_teardown ev -> listening c = false -> timers c = [] ->
  listening (step c ev) = false /\ timers (step c ev) = [] /\
  sent (step c ev) = sent c.
Proof.
  intros Hev Hl Ht. destruct ev as [e | s | dt | | | r ok | ]; simpl in *;
    try contradiction.
  - unfold mutate. destruct (editorRef c); auto. simpl. rewrite Hl. simpl. auto.
  - unfold advance. rewrite Ht. simpl. auto.
  - unfold settle. destruct (existsb _ _); [destruct ok|]; simpl; auto.
  - unfold unmount. simpl. destruct (pending (saveTimeoutRef c)); simpl;
      rewrite ?Ht; auto.
Qed.

(** X26: after the editor's cleanup has run no timer is pending, and time
    passing, late edits and settling requests send nothing. *)
Theorem nothing_written_after_teardown :
  forall c evs,
    tracked c -> Forall after_teardown evs ->
    sent (run (Unmount :: evs) c) = sent c /\
    timers (run (Unmount :: evs) c) = [].
Proof.
  intros c evs Ht Hevs. pose proof (tracked_clear c Ht) as Hc.
  change (run (Unmount :: evs) c) with (run evs (unmount c)).
  assert (H0 : listening (unmount c) = false /\ timers (unmount c) = [] /\
               sent (unmount c) = sent c).
  { unfold unmount. simpl. destruct (pending (saveTimeoutRef c)); simpl; auto. }
  revert H0. generalize (unmount c) as c1. unfold run.
  induction Hevs as [|ev evs Hev _ IH]; intros c1 (Hl & Htm & Hs); simpl; auto.
  destruct (quiet_step c1 ev Hev Hl Htm) as (Hl' & Htm' & Hs').
  apply IH. rewrite Hs'. auto.
Qed.

Lemma nothing_written_after_teardown_witness :
  sent (run [Unmount; Change (stroke 2); Elapse 5000] edited_canvas) = [].
Proof.
  refine (proj1 (nothing_written_after_teardown edited_canvas
                   [Change (stroke 2); Elapse 5000] _ _)).
  - apply (reachable_tracked (Some 7%N) [Mount _; Change _]).
  - repeat constructor.
Defined.

(** ** How a write settles *)

(** X27: when a write fails and no edit is pending, the status becomes
    Unsaved with the message "Failed to save canvas" and nothing is sent
    again however long one waits; a manual save then sends the live
    snapshot. *)
Theorem failed_write_is_not_retried :
  forall c r d,
    timers c = [] ->
    existsb (fun w => request w =? r) (in_flight c) = true ->
    let c' := run [Settled r false; Elapse d] c in
    saveStatus c' = unsaved /\
    error c' = "Failed to save canvas"%string /\
    sent c' = sent c /\
    (forall i e,
       id c = Some i -> editorRef c = Some e ->
       sent (step c' KeySave) = sent c ++ [next_write i e c]).
Proof.
  intros c r d Ht Hin c'.
  assert (Hc' : c' = set_timers (now c + d) [] (next_handle c) (settle r false c)).
  { unfold c'. change (run [Settled r false; Elapse d] c) with (advance d (settle r false c)).
    unfold advance. rewrite (proj1 (settle_timers r false c)), Ht.
    unfold settle. rewrite Hin. reflexivity. }
  rewrite Hc'. unfold settle. rewrite Hin. cbn.
  repeat split.
  intros i e Hid He. unfold handleManualSave, saveCanvas. cbn.
  destruct (pending (saveTimeoutRef c)); cbn; rewrite Hid, He; reflexivity.
Qed.

Lemma failed_write_is_not_retried_witness :
  saveStatus (run [Settled 0 false; Elapse 10000] editing) = unsaved /\
  sent (run [Settled 0 false; Elapse 10000] editing) = sent editing.
Proof.
  destruct (failed_write_is_not_retried editing 0 10000 eq_refl eq_refl)
    as (H1 & _ & H3 & _).
  split; [exact H1 | exact H3].
Defined.

Lemma armed_settle i s log c r ok : armed i s log c -> armed i s log (settle r ok c).
Proof.
  unfold settle. destruct (existsb _ _); [destruct ok|]; auto.
Qed.

(** X28: an edit made while a write is in flight is not part of it: when
    that write succeeds the status shows Saved although the edit is still
    waiting for its timer; it is sent when the timer fires. *)
Theorem saved_shown_while_edit_pending :
  forall i c s r d,
    mounted i c -> tracked c ->
    existsb (fun w => request w =? r) (in_flight c) = true -> 3000 <= d ->
    let c' := run [Change s; Settled r true] c in
    saveStatus c' = saved /\
    List.length (timers c') = 1%nat /\
    sent c' = sent c /\
    sent (advance d c')
    = sent c ++ [ {| request := Z.of_nat (List.length (sent c)); canvas_id := i;
                     sent_snapshot := s |} ].
Proof.
  intros i c s r d Hm Ht Hin Hd c'.
  pose proof (mutate_arms i c s Hm Ht) as Ha.
  assert (Hfl : in_flight (mutate s c) = in_flight c).
  { unfold mutate. destruct Hm as (_ & He & Hl).
    destruct (editorRef c); [|congruence]. simpl. rewrite Hl.
    unfold on_change, setTimeout, clearTimeout. simpl.
    destruct (pending (saveTimeoutRef c)); reflexivity. }
  assert (Hc' : c' = settle r true (mutate s c)) by reflexivity.
  pose proof (armed_settle i s (sent c) (mutate s c) r true Ha) as Ha'.
  rewrite <- Hc' in Ha'.
  split.
  - rewrite Hc'. unfold settle. rewrite Hfl, Hin. reflexivity.
  - destruct (armed_fire i s (sent c) c' d Ha' Hd) as (Hs & _).
    destruct Ha' as (_ & _ & _ & _ & (h & _ & _ & Htm) & Hsent).
    rewrite Htm. auto.
Qed.

Lemma saved_shown_while_edit_pending_witness :
  saveStatus (run [Change (stroke 2); Settled 0 true] editing) = saved /\
  List.length (timers (run [Change (stroke 2); Settled 0 true] editing)) = 1%nat.
Proof.
  destruct (saved_shown_while_edit_pending 7%N editing (stroke 2) 0 3000)
    as (H1 & H2 & _).
  - repeat split. discriminate.
  - apply (reachable_tracked (Some 7%N) [Mount _; Change _; Elapse 3000]).
  - reflexivity.
  - lia.
  - split; [exact H1 | exact H2].
Defined.

(** ** Nothing to save *)

Lemma saveCanvas_idle c :
  id c = None \/ editorRef c = None -> saveCanvas c = c.
Proof.
  unfold saveCanvas. intros [-> | ->]; [reflexivity|]. destruct (id c); reflexivity.
Qed.

Lemma fold_saveCanvas_idle {A} (l : list A) c :
  id c = None \/ editorRef c = None ->
  fold_left (fun s _ => saveCanvas s) l c = c.
Proof.
  intros H. induction l as [|a l IH]; simpl; auto.
  now rewrite (saveCanvas_idle c H).
Qed.

Lemma idle_step c ev :
  (id c = None \/ (editorRef c = None /\ not_mount ev)) ->
  (id (step c ev) = id c) /\
  (editorRef c = None -> not_mount ev -> editorRef (step c ev) = None) /\
  sent (step c ev) = sent c.
Proof.
  intros H.
  assert (Hidle : id c = None \/ editorRef c = None) by tauto.
  assert (Hman : handleManualSave c
                 = match pending (saveTimeoutRef c) with
                   | Some h => set_saveTimeoutRef None (clearTimeout h c)
                   | None => c
                   end).
  { unfold handleManualSave. apply saveCanvas_idle.
    destruct (pending (saveTimeoutRef c)); exact Hidle. }
  destruct ev as [e | s | dt | | | r ok | ]; simpl.
  - repeat split; auto. intros _ [].
  - unfold mutate. destruct (editorRef c) eqn:Ee; [|auto].
    simpl. destruct (listening c); simpl.
    + unfold on_change, setTimeout, clearTimeout. simpl.
      destruct (pending (saveTimeoutRef c)); simpl; repeat split; auto; discriminate.
    + repeat split; auto; discriminate.
  - unfold advance. rewrite fold_saveCanvas_idle by (simpl; exact Hidle).
    simpl. auto.
  - destruct (saveStatus c); auto; rewrite Hman;
      destruct (pending (saveTimeoutRef c)); simpl; auto.
  - rewrite Hman. destruct (pending (saveTimeoutRef c)); simpl; auto.
  - unfold settle. destruct (existsb _ _); [destruct ok|]; simpl; auto.
  - unfold unmount. simpl. destruct (pending (saveTimeoutRef c)); simpl; auto.
Qed.

Lemma idle_run evs c :
  (id c = None \/ (editorRef c = None /\ Forall not_mount evs)) ->
  sent (run evs c) = sent c.
Proof.
  unfold run. revert c.
  induction evs as [|ev evs IH]; intros c Hc; cbn [fold_left]; auto.
  assert (Hstep : id c = None \/ (editorRef c = None /\ not_mount ev)).
  { destruct Hc as [Hc | [Hc Hf]]; [now left|]. right. split; auto.
    now inversion Hf. }
  destruct (idle_step c ev Hstep) as (Hid & He & Hs).
  rewrite IH.
  - exact Hs.
  - destruct Hc as [Hc | [Hc Hf]].
    + left. now rewrite Hid.
    + right. inversion Hf; subst. split; auto.
Qed.

(** X29: without a canvas id in the route, or as long as the editor has
    not mounted, no event sends a request. *)
Theorem nothing_sent_without_canvas_or_editor :
  forall i evs,
    (i = None \/ Forall not_mount evs) ->
    sent (run evs (init i)) = [].
Proof.
  intros i evs H. rewrite idle_run; [reflexivity|].
  destruct H as [-> | H]; [now left | right; split; auto].
Qed.

Lemma nothing_sent_without_canvas_or_editor_witness :
  sent (run [Mount {| document := JObj [] |}; Change (stroke 1); KeySave; Elapse 3000]
            (init None)) = [].
Proof.
  apply nothing_sent_without_canvas_or_editor. left. reflexivity.
Defined.
End ClientExtras.

(* ================================================================== *)
(** * The client against the server *)
(* ================================================================== *)

Module EndToEnd.
Import JS Server Creation ServerSpec ExtraSpec ServerFacts ServerExtras Scenario.

(** ** Trimming twice *)

Lemma trim_start_clean s : clean_start (trim_start s).
Proof.
  induction s as [|c s IH]; simpl; auto.
  destruct (is_space c) eqn:E; simpl; auto.
Qed.

Lemma trim_start_of_clean s : clean_start s -> trim_start s = s.
Proof. destruct s as [|c s]; simpl; auto. now intros ->. Qed.

Lemma trim_start_suffix s : exists pre, s = pre ++ trim_start s.
Proof.
  induction s as [|c s [pre IH]]; simpl.
  - now exists [].
  - destruct (is_space c).
    + exists (c :: pre). simpl. now rewrite <- IH.
    + now exists [].
Qed.

Lemma trim_clean s : clean_start (trim s) /\ clean_start (rev (trim s)).
Proof.
  unfold trim. rewrite rev_involutive. split; [|apply trim_start_clean].
  pose proof (trim_start_clean s) as Hy.
  destruct (trim_start_suffix (rev (trim_start s))) as [pre Hpre].
  set (z := trim_start (rev (trim_start s))) in *.
  assert (Hy' : trim_start s = rev z ++ rev pre).
  { rewrite <- rev_app_distr, <- Hpre. now rewrite rev_involutive. }
  destruct (rev z) as [|c t]; simpl; auto.
  rewrite Hy' in Hy. exact Hy.
Qed.

Lemma trim_idempotent s : trim (trim s) = trim s.
Proof.
  destruct (trim_clean s) as [H1 H2].
  unfold trim at 1. rewrite (trim_start_of_clean _ H1), (trim_start_of_clean _ H2).
  apply rev_involutive.
Qed.

(** ** The dashboard dialog against POST /canvases *)

(** X12: a name the dashboard dialog accepts is never answered 400 by
    POST /canvases, and on a working store the canvas is created under
    exactly the name the dialog sent (the server's trim changes nothing). *)
Theorem dashboard_name_is_stored_as_sent :
  forall st st' name uid w,
    Dashboard.handleCreateCanvas st = (st', Some name) ->
    name = trim (Dashboard.newCanvasName st) /\
    fst (create_canvas uid (Api.create_body name) w) <> name_required /\
    (next_fault w = Healthy -> fresh_id w ->
     fst (create_canvas uid (Api.create_body name) w)
     = {| status := 201; body := CanvasBody (Some (new_canvas uid name w)) |}).
Proof.
  intros st st' name uid w H. unfold Dashboard.handleCreateCanvas in H.
  destruct (trim (Dashboard.newCanvasName st)) as [|c t] eqn:Et; [discriminate|].
  injection H as _ <-. split; [reflexivity|].
  assert (Hn : trim (c :: t) = c :: t) by (rewrite <- Et; apply trim_idempotent).
  unfold Api.create_body, create_canvas, try_catch, bind.
  cbn [truthy negb call_trim ret]. rewrite Hn. unfold await, insert_drawing.
  split.
  - destruct (next_fault w); try discriminate.
    destruct (existsb _ _); discriminate.
  - intros Hh Hf. rewrite Hh. unfold fresh_id in Hf.
    change (drawings (consume w)) with (drawings w).
    change (next_id (consume w)) with (next_id w). rewrite Hf. reflexivity.
Qed.

Lemma dashboard_name_is_stored_as_sent_witness :
  fst (create_canvas alice (Api.create_body (utf16 "Trip Plan")) two_tenants)
  = {| status := 201;
       body := CanvasBody (Some (new_canvas alice (utf16 "Trip Plan") two_tenants)) |}.
Proof.
  refine (proj2 (proj2 (dashboard_name_is_stored_as_sent
                          {| Dashboard.error := ""; Dashboard.createDialogOpen := true;
                             Dashboard.newCanvasName := utf16 "  Trip Plan " |}
                          _ (utf16 "Trip Plan") alice two_tenants eq_refl)) eq_refl eq_refl).
Defined.

(** ** A save of the canvas page against PATCH /canvases/:id *)

(** X30: the request a save of the canvas page makes carries a snapshot and
    no name: served for the owner by a working store, it replaces the
    snapshot of that one row and changes nothing else. *)
Theorem autosave_never_renames :
  forall w d wr,
    unique_ids w -> In d (drawings w) -> healthy 2 w ->
    update_canvas (d_user_id d) (d_id d) (Api.save_body wr) w
    = ({| status := 200;
          body := CanvasBody (Some {| d_id := d_id d; d_user_id := d_user_id d;
                                      drawing_name := drawing_name d;
                                      snapshot := Client.sent_snapshot wr |}) |},
       with_drawings
         (map (fun x => if eq_id (d_id d) x
                        then {| d_id := d_id x; d_user_id := d_user_id x;
                                drawing_name := drawing_name x;
                                snapshot := Client.sent_snapshot wr |}
                        else x) (drawings w))
         (consume (consume w))).
Proof.
  intros w d wr Hu Hin Hh.
  rewrite (update_owner_outcome w d (Api.save_body wr) None Hu Hin Hh);
    [reflexivity | reflexivity | left; discriminate].
Qed.

Lemma autosave_never_renames_witness :
  fst (update_canvas alice trip_plan
         (Api.save_body {| Client.request := 0; Client.canvas_id := trip_plan;
                           Client.sent_snapshot := shapes |}) two_tenants)
  = {| status := 200;
       body := CanvasBody (Some {| d_id := trip_plan; d_user_id := alice;
                                   drawing_name := utf16 "Trip Plan";
                                   snapshot := shapes |}) |}.
Proof.
  refine (f_equal fst (autosave_never_renames two_tenants
            {| d_id := trip_plan; d_user_id := alice;
               drawing_name := utf16 "Trip Plan"; snapshot := JObj [] |} _ _ _ _)).
  - unfold unique_ids. simpl. constructor; [intros [] | constructor].
  - left. reflexivity.
  - constructor.
Defined.
End EndToEnd.
